(** * nessus_parser: extraction of a Nessus v2 scan export and its report layout

    A shallow embedding of [nessus_parser.py].  Python exceptions and
    [sys.exit] are results of an error monad, dictionaries with a fixed key
    set and insertion order (the record dictionaries handed to pandas) are
    association lists, the two dictionaries used as maps ([host_props] and
    [host_vuln_counts]) are [gmap]s, and the workbook is the list of its
    worksheets in creation order, each with the log of its cell writes. *)

From stdpp Require Import base option list gmap strings fin_maps pretty.
From Stdlib Require Import ZArith Lia Ascii.

Set Warnings "-register-all".
Open Scope string_scope.
Open Scope list_scope.
Open Scope Z_scope.

(** ** Python values and exceptions *)

Inductive Value : Type :=
| VNone
| VStr (s : string)
| VInt (z : Z).

#[global] Instance Value_eq_dec : EqDecision Value.
Proof. solve_decision. Defined.

(** [None] or a string, as [attrib.get], [tag.text] and [findtext] return. *)
Definition of_opt (o : option string) : Value :=
  match o with
  | Some s => VStr s
  | None => VNone
  end.

Inductive PyError : Type :=
| SystemExit (code : Z) (printed : string)
| ValueError
| TypeError
| KeyError (key : Value)
| AttributeError
| OSError
| SyntaxError (msg : string).

Inductive PyResult (A : Type) : Type :=
| Ok (a : A)
| Raise (e : PyError).
Arguments Ok {A} a.
Arguments Raise {A} e.

#[global] Instance PyResult_ret : MRet PyResult := fun A a => Ok a.
#[global] Instance PyResult_bind : MBind PyResult := fun A B k m =>
  match m with
  | Ok a => k a
  | Raise e => Raise e
  end.

(** A [for] loop whose body may raise: the state is threaded left to right
    and the first exception ends the loop. *)
Fixpoint for_each {A S} (body : S -> A -> PyResult S) (l : list A) (s : S)
  : PyResult S :=
  match l with
  | [] => Ok s
  | x :: l' => s' ← body s x; for_each body l' s'
  end.

(** A dictionary literal / record dictionary: keys in insertion order. *)
Definition PyDict : Type := list (string * Value).

Fixpoint dict_get (k : string) (d : PyDict) : option Value :=
  match d with
  | [] => None
  | (k', v) :: d' => if bool_decide (k' = k) then Some v else dict_get k d'
  end.

(** [d[k]] on a record dictionary. *)
Definition dict_item (k : string) (d : PyDict) : PyResult Value :=
  match dict_get k d with
  | Some v => Ok v
  | None => Raise (KeyError (VStr k))
  end.

(** ** Configuration for severity levels *)

Definition SEVERITY_MAP : gmap Z string :=
  <[0 := "Info"]> (<[1 := "Low"]> (<[2 := "Medium"]> (<[3 := "High"]>
    (<[4 := "Critical"]> ∅)))).

Definition COLORS : gmap string string :=
  <["Critical" := "#D20F0F"]> (<["High" := "#FF8000"]>
    (<["Medium" := "#FFCC00"]> (<["Low" := "#00CC00"]>
      (<["Info" := "#0000FF"]> ∅)))).

(** ** The element tree (lxml.etree)

    Tags are in the form the parser gives them ([{uri}local] for a name in a
    namespace).  Comments and processing instructions never match a name
    test and are left out. *)

Inductive Element : Type :=
  mkElement {
    tag : string;
    attrib : gmap string string;
    text : option string;
    children : list Element
  }.

Fixpoint index_of (c : ascii) (s : string) : option nat :=
  match s with
  | EmptyString => None
  | String c' s' =>
      if Ascii.eqb c' c then Some 0%nat else S <$> index_of c s'
  end.

Definition str_take (n : nat) (s : string) : string := String.substring 0 n s.

(** One name step of an ElementPath expression, called without a namespace
    map, as every call of this program is.  lxml's tokenizer
    ([_elementpath.xpath_tokenizer]) leaves a name in [{uri}local] form alone,
    and for any other name that contains a colon it looks the prefix up in
    the namespace map; with no map the lookup fails and it raises
    [SyntaxError("prefix %r not found in prefix map")].  All paths of the
    program are single names, so steps, wildcards and predicates are not
    modelled. *)
Definition path_name (path : string) : PyResult string :=
  match path with
  | String "{" _ => Ok path
  | _ =>
      match index_of ":" path with
      | Some i =>
          Raise (SyntaxError ("prefix '" +:+ str_take i path
                                +:+ "' not found in prefix map"))
      | None => Ok path
      end
  end.

Definition has_tag (name : string) (e : Element) : bool :=
  bool_decide (tag e = name).

(** [elem.findall(path)]: the children with that tag, in document order. *)
Definition findall (elem : Element) (path : string) : PyResult (list Element) :=
  name ← path_name path;
  Ok (List.filter (has_tag name) (children elem)).

(** [elem.find(path)]: the first such child, or [None]. *)
Definition find (elem : Element) (path : string) : PyResult (option Element) :=
  l ← findall elem path;
  Ok (head l).

(** [elem.findtext(path)]: [None] when no child matches, else its text, the
    empty string standing for an absent text. *)
Definition findtext (elem : Element) (path : string) : PyResult (option string) :=
  el ← find elem path;
  Ok (match el with
      | None => None
      | Some e => Some (default "" (text e))
      end).

(** ** [int(s)] on an attribute value

    The parser hands attribute values over as [str]; they are kept here as
    their UTF-8 bytes and read back as code points.  [int] strips white
    space on both sides, allows one ASCII sign, and reads decimal digits of
    any script, which may be grouped by single underscores; more than 4300
    digits are refused.  [int(None)] is a [TypeError].  The tables are those
    of CPython 3.11 (Unicode 14.0). *)

(** ASCII decimal digits, as A1 cell references use them. *)
Definition digit_of (c : ascii) : option Z :=
  let n := nat_of_ascii c in
  if ((48 <=? n) && (n <=? 57))%nat then Some (Z.of_nat n - 48) else None.

Definition is_cont (b : N) : bool := ((128 <=? b) && (b <? 192))%N.

(** The code points of a UTF-8 byte sequence.  A byte that starts no
    well-formed sequence is read as U+FFFD, which is neither a digit nor white
    space; no value the parser returns has such a byte. *)
Fixpoint code_points (l : list N) : list N :=
  match l with
  | [] => []
  | b :: l1 =>
      if (b <? 128)%N then b :: code_points l1
      else
        match l1 with
        | b1 :: l2 =>
            let c2 := ((b - 192) * 64 + (b1 - 128))%N in
            if ((192 <=? b) && (b <? 224) && is_cont b1 && (128 <=? c2))%N
            then c2 :: code_points l2
            else
              match l2 with
              | b2 :: l3 =>
                  let c3 := ((b - 224) * 4096 + (b1 - 128) * 64
                             + (b2 - 128))%N in
                  if ((224 <=? b) && (b <? 240) && is_cont b1 && is_cont b2
                      && (2048 <=? c3))%N
                  then c3 :: code_points l3
                  else
                    match l3 with
                    | b3 :: l4 =>
                        let c4 := ((b - 240) * 262144 + (b1 - 128) * 4096
                                   + (b2 - 128) * 64 + (b3 - 128))%N in
                        if ((240 <=? b) && (b <? 248) && is_cont b1
                            && is_cont b2 && is_cont b3 && (65536 <=? c4))%N
                        then c4 :: code_points l4
                        else 65533%N :: code_points l1
                    | [] => 65533%N :: code_points l1
                    end
              | [] => 65533%N :: code_points l1
              end
        | [] => [65533%N]
        end
  end.

Definition str_code_points (s : string) : list N :=
  code_points (N_of_ascii <$> String.list_ascii_of_string s).

(** White space as [int] sees it: the ASCII characters tab to carriage
    return and space, and the white space beyond ASCII. *)
Definition is_space (c : N) : bool :=
  ((9 <=? c) && (c <=? 13) || (c =? 32) || (c =? 133) || (c =? 160)
   || (c =? 5760) || (8192 <=? c) && (c <=? 8202) || (c =? 8232)
   || (c =? 8233) || (c =? 8239) || (c =? 8287) || (c =? 12288))%N.

(** The code points of the digit zero of every script with decimal digits;
    the nine after each are its digits one to nine. *)
Definition decimal_zeros : list N :=
  [
    48; 1632; 1776; 1984; 2406; 2534; 2662; 2790; 2918; 3046; 3174; 3302;
    3430; 3558; 3664; 3792; 3872; 4160; 4240; 6112; 6160; 6470; 6608; 6784;
    6800; 6992; 7088; 7232; 7248; 42528; 43216; 43264; 43472; 43504; 43600;
    44016; 65296; 66720; 68912; 69734; 69872; 69942; 70096; 70384; 70736;
    70864; 71248; 71360; 71472; 71904; 72016; 72784; 73040; 73120; 92768;
    92864; 93008; 120782; 120792; 120802; 120812; 120822; 123200; 123632;
    125264; 130032
  ]%N.

Definition decimal_of (c : N) : option Z :=
  (fun z => Z.of_N (c - z))
    <$> List.find (fun z => (z <=? c) && (c <? z + 10))%N decimal_zeros.

Fixpoint lstrip (l : list N) : list N :=
  match l with
  | c :: l' => if is_space c then lstrip l' else l
  | [] => []
  end.

Definition strip (l : list N) : list N :=
  rev (lstrip (rev (lstrip l))).

(** [sys.get_int_max_str_digits()] *)
Definition max_str_digits : N := 4300.

(** The digits after the sign: [count] digits were read so far, underscores
    not counted. *)
Fixpoint int_digits (l : list N) (acc : Z) (after_digit : bool) (count : N)
  : option Z :=
  match l with
  | [] => if after_digit && (count <=? max_str_digits)%N then Some acc else None
  | c :: l' =>
      match decimal_of c with
      | Some d => int_digits l' (10 * acc + d) true (count + 1)%N
      | None =>
          if (c =? 95)%N && after_digit
          then int_digits l' acc false count
          else None
      end
  end.

Definition int_of_string (s : string) : option Z :=
  match strip (str_code_points s) with
  | 45%N :: l => Z.opp <$> int_digits l 0 false 0
  | 43%N :: l => int_digits l 0 false 0
  | l => int_digits l 0 false 0
  end.

Definition py_int (v : option string) : PyResult Z :=
  match v with
  | None => Raise TypeError
  | Some s =>
      match int_of_string s with
      | Some z => Ok z
      | None => Raise ValueError
      end
  end.

(** ** XML extractor: [parse_nessus_xml] *)

(** What [os.path.exists] and [etree.parse] find at a path. *)
Inductive FileState : Type :=
| NoFile
| BadXML (e : string)
| Document (root : Element).

(** [host_props = {}] followed by the loop over the [tag] children. *)
Definition collect_props (tags : list Element)
  : gmap (option string) (option string) :=
  foldl (fun host_props t => <[attrib t !! "name" := text t]> host_props) ∅ tags.

(** [host_props.get(key, 'N/A')] *)
Definition props_get (host_props : gmap (option string) (option string))
    (key : string) : option string :=
  default (Some "N/A") (host_props !! Some key).

Definition init_counts : gmap Z Z :=
  <[0 := 0]> (<[1 := 0]> (<[2 := 0]> (<[3 := 0]> (<[4 := 0]> ∅)))).

(** [host_vuln_counts[k]] *)
Definition counts_item (host_vuln_counts : gmap Z Z) (k : Z) : PyResult Z :=
  match host_vuln_counts !! k with
  | Some n => Ok n
  | None => Raise (KeyError (VInt k))
  end.

(** [host_vuln_counts[severity] += 1]: the read comes first, so a key that
    is not in the dictionary is a [KeyError]. *)
Definition counts_incr (host_vuln_counts : gmap Z Z) (severity : Z)
  : PyResult (gmap Z Z) :=
  n ← counts_item host_vuln_counts severity;
  Ok (<[severity := n + 1]> host_vuln_counts).

(** [sum(host_vuln_counts.values())] *)
Definition counts_sum (host_vuln_counts : gmap Z Z) : Z :=
  map_fold (fun _ n acc => n + acc) 0 host_vuln_counts.

(** [SEVERITY_MAP.get(severity, 'Unknown')] *)
Definition severity_label (severity : Z) : string :=
  default "Unknown" (SEVERITY_MAP !! severity).

Definition compliance_dict (file_path : string) (ip fqdn : option string)
    (item : Element) (severity : Z) : PyResult PyDict :=
  audit_file ← findtext item "cm:compliance-audit-file";
  check_name ← findtext item "cm:compliance-check-name";
  result ← findtext item "cm:compliance-result";
  actual_value ← findtext item "cm:compliance-actual-value";
  policy_value ← findtext item "cm:compliance-policy-value";
  info ← findtext item "cm:compliance-info";
  solution ← findtext item "cm:compliance-solution";
  see_also ← findtext item "cm:compliance-see-also";
  Ok [ ("File", VStr file_path);
       ("IP Address", of_opt ip);
       ("FQDN", of_opt fqdn);
       ("Plugin ID", of_opt (attrib item !! "pluginID"));
       ("Severity", VInt severity);
       ("Plugin Name", of_opt (attrib item !! "pluginName"));
       ("Audit File", of_opt audit_file);
       ("Check Name", of_opt check_name);
       ("Result", of_opt result);
       ("Actual Value", of_opt actual_value);
       ("Policy Value", of_opt policy_value);
       ("Info", of_opt info);
       ("Solution", of_opt solution);
       ("See Also", of_opt see_also) ].

Definition vuln_dict (file_path : string) (ip fqdn : option string)
    (item : Element) (severity : Z) : PyResult PyDict :=
  description ← findtext item "description";
  solution ← findtext item "solution";
  synopsis ← findtext item "synopsis";
  cvss_base ← findtext item "cvss_base_score";
  cvss_vector ← findtext item "cvss_vector";
  exploit_ease ← findtext item "exploitability_ease";
  Ok [ ("File", VStr file_path);
       ("IP Address", of_opt ip);
       ("FQDN", of_opt fqdn);
       ("Port", of_opt (attrib item !! "port"));
       ("Protocol", of_opt (attrib item !! "protocol"));
       ("Service", of_opt (attrib item !! "svc_name"));
       ("Plugin ID", of_opt (attrib item !! "pluginID"));
       ("Plugin Name", of_opt (attrib item !! "pluginName"));
       ("Plugin Family", of_opt (attrib item !! "pluginFamily"));
       ("Severity", VInt severity);
       ("Severity Label", VStr (severity_label severity));
       ("CVSS Base Score", of_opt cvss_base);
       ("CVSS Vector", of_opt cvss_vector);
       ("Description", of_opt description);
       ("Solution", of_opt solution);
       ("Synopsis", of_opt synopsis);
       ("Exploitability Ease", of_opt exploit_ease) ].

(** [plugin_family == 'Policy Compliance'] *)
Definition is_compliance (item : Element) : bool :=
  bool_decide (attrib item !! "pluginFamily" = Some "Policy Compliance").

(** The state of the loop over the items of one host: the host's counts and
    the two lists shared by all hosts. *)
Definition ItemState : Type := gmap Z Z * list PyDict * list PyDict.

(** The body of [for item in report_host.findall('ReportItem')]. *)
Definition item_body (file_path : string) (ip fqdn : option string)
    (st : ItemState) (item : Element) : PyResult ItemState :=
  let '(host_vuln_counts, vulnerabilities, compliance_items) := st in
  severity ← py_int (attrib item !! "severity");
  if is_compliance item then
    d ← compliance_dict file_path ip fqdn item severity;
    Ok (host_vuln_counts, vulnerabilities, compliance_items ++ [d])
  else
    host_vuln_counts' ← counts_incr host_vuln_counts severity;
    d ← vuln_dict file_path ip fqdn item severity;
    Ok (host_vuln_counts', vulnerabilities ++ [d], compliance_items).

Definition host_dict (ip fqdn os_name : option string)
    (host_vuln_counts : gmap Z Z) : PyResult PyDict :=
  critical ← counts_item host_vuln_counts 4;
  high ← counts_item host_vuln_counts 3;
  medium ← counts_item host_vuln_counts 2;
  low ← counts_item host_vuln_counts 1;
  info ← counts_item host_vuln_counts 0;
  Ok [ ("IP Address", of_opt ip);
       ("FQDN", of_opt fqdn);
       ("Operating System", of_opt os_name);
       ("Critical", VInt critical);
       ("High", VInt high);
       ("Medium", VInt medium);
       ("Low", VInt low);
       ("Info", VInt info);
       ("Total", VInt (counts_sum host_vuln_counts)) ].

(** [host_props] of one host element. *)
Definition host_props_of (report_host : Element)
  : PyResult (gmap (option string) (option string)) :=
  host_properties ← find report_host "HostProperties";
  match host_properties with
  | Some hp => tags ← findall hp "tag"; Ok (collect_props tags)
  | None => Ok ∅
  end.

Definition ParseState : Type := list PyDict * list PyDict * list PyDict.

(** The body of [for report_host in report.findall('ReportHost')]. *)
Definition host_body (file_path : string) (st : ParseState)
    (report_host : Element) : PyResult ParseState :=
  let '(hosts_data, vulnerabilities, compliance_items) := st in
  host_props ← host_props_of report_host;
  let ip := props_get host_props "host-ip" in
  let fqdn := props_get host_props "host-fqdn" in
  let os_name := props_get host_props "operating-system" in
  items ← findall report_host "ReportItem";
  '(host_vuln_counts, vulnerabilities', compliance_items') ←
    for_each (item_body file_path ip fqdn) items
             (init_counts, vulnerabilities, compliance_items);
  d ← host_dict ip fqdn os_name host_vuln_counts;
  Ok (hosts_data ++ [d], vulnerabilities', compliance_items').

Definition parse_nessus_xml (fs : string -> FileState) (file_path : string)
  : PyResult ParseState :=
  match fs file_path with
  | NoFile =>
      Raise (SystemExit 1 ("Error: File " +:+ file_path +:+ " not found."))
  | BadXML e => Raise (SystemExit 1 ("Error parsing XML: " +:+ e))
  | Document root =>
      report ← find root "Report";
      match report with
      | None =>
          Raise (SystemExit 1
                   "Error: Invalid Nessus file format (no Report tag).")
      | Some report =>
          report_hosts ← findall report "ReportHost";
          for_each (host_body file_path) report_hosts ([], [], [])
      end
  end.

(** ** Spreadsheet model (pandas frames written through xlsxwriter) *)

Record Chart : Type := mkChart {
  chart_type : string;
  series_name : string;
  categories : string;
  values : string;
  points : list (option string);
  chart_title : string;
  chart_style : Z
}.

(** Cells are addressed by zero-based (row, column); [ws_cells] is the log of
    the writes in the order they were made.  Cell formats are cosmetic and
    left out. *)
Record Worksheet : Type := mkWorksheet {
  ws_name : string;
  ws_cells : list (nat * nat * Value);
  ws_charts : list (string * Chart);
  ws_tab_color : option (option string);
  ws_columns : list (string * Z)
}.

Definition ws_write (ws : Worksheet) (row col : nat) (v : Value) : Worksheet :=
  mkWorksheet (ws_name ws) (ws_cells ws ++ [(row, col, v)]) (ws_charts ws)
              (ws_tab_color ws) (ws_columns ws).

Definition insert_chart (ws : Worksheet) (cell : string) (c : Chart) : Worksheet :=
  mkWorksheet (ws_name ws) (ws_cells ws) (ws_charts ws ++ [(cell, c)])
              (ws_tab_color ws) (ws_columns ws).

Definition set_tab_color (ws : Worksheet) (color : option string) : Worksheet :=
  mkWorksheet (ws_name ws) (ws_cells ws) (ws_charts ws) (Some color)
              (ws_columns ws).

Definition set_column (ws : Worksheet) (cols : string) (width : Z) : Worksheet :=
  mkWorksheet (ws_name ws) (ws_cells ws) (ws_charts ws) (ws_tab_color ws)
              (ws_columns ws ++ [(cols, width)]).

(** The value a cell holds: the last write to it. *)
Definition cell_at (ws : Worksheet) (rc : nat * nat) : option Value :=
  snd <$> head (List.filter (fun w => bool_decide (fst w = rc))
                            (rev (ws_cells ws))).

(** A write seen from a row: its column and value when it is in the row. *)
Definition in_row (row : nat) (w : nat * nat * Value) : option (nat * Value) :=
  if bool_decide (fst (fst w) = row) then Some (snd (fst w), snd w) else None.

(** The cells of one row as (column, value) pairs, in the order they were
    written. *)
Definition row_cells (ws : Worksheet) (row : nat) : list (nat * Value) :=
  omap (in_row row) (ws_cells ws).

(** A1 notation (xlsxwriter's [xl_cell_to_rowcol]): column letters then a
    one-based row number, each possibly after a dollar sign. *)
Definition upper_of (c : ascii) : option nat :=
  let n := nat_of_ascii c in
  if ((65 <=? n) && (n <=? 90))%nat then Some (n - 64)%nat else None.

Fixpoint a1_row (l : list ascii) (acc : nat) (seen : bool) : option nat :=
  match l with
  | [] => if seen then Some acc else None
  | c :: l' =>
      match digit_of c with
      | Some d => a1_row l' (10 * acc + Z.to_nat d)%nat true
      | None => None
      end
  end.

Fixpoint a1_col (l : list ascii) (acc : nat) : option (nat * nat) :=
  match l with
  | [] => None
  | c :: l' =>
      match upper_of c with
      | Some n => a1_col l' (26 * acc + n)%nat
      | None =>
          let digits := if Ascii.eqb c "$" then l' else l in
          row ← a1_row digits 0%nat false;
          if bool_decide (acc = 0%nat ∨ row = 0%nat) then None
          else Some (row - 1, acc - 1)%nat
      end
  end.

Definition xl_cell_to_rowcol (cell : string) : option (nat * nat) :=
  match String.list_ascii_of_string cell with
  | "$"%char :: l => a1_col l 0%nat
  | l => a1_col l 0%nat
  end.

Fixpoint split_on (c : ascii) (s : string) : option (string * string) :=
  match s with
  | EmptyString => None
  | String c' s' =>
      if Ascii.eqb c' c then Some (EmptyString, s')
      else '(a, b) ← split_on c s'; Some (String c' a, b)
  end.

(** The cells a chart reference [=Sheet!$A$1:$B$2] names: the sheet, and the
    cells of the rectangle row by row. *)
Definition range_cells (ref : string) : option (string * list (nat * nat)) :=
  match ref with
  | String "=" body =>
      '(sheet, area) ← split_on "!" body;
      '(first, last) ← split_on ":" area;
      '(r1, c1) ← xl_cell_to_rowcol first;
      '(r2, c2) ← xl_cell_to_rowcol last;
      Some (sheet,
            r ← seq r1 (S r2 - r1); (fun c => (r, c)) <$> seq c1 (S c2 - c1))
  | _ => None
  end.

(** [worksheet.write('A20', v)]: a string that is not a cell makes the
    conversion fail on its unmatched pattern. *)
Definition ws_write_a1 (ws : Worksheet) (cell : string) (v : Value)
  : PyResult Worksheet :=
  match xl_cell_to_rowcol cell with
  | Some (row, col) => Ok (ws_write ws row col v)
  | None => Raise AttributeError
  end.

(** A frame built from record dictionaries: the column labels in order and
    the records; a cell is the record's value under the column label, and a
    record without that key has a missing value there. *)
Record DataFrame : Type := mkDataFrame {
  columns : list string;
  records : list PyDict
}.

Definition add_keys (cols : list string) (d : PyDict) : list string :=
  foldl (fun cols k => if bool_decide (k ∈ cols) then cols else cols ++ [k])
        cols (fst <$> d).

(** [pd.DataFrame(records)]: the columns are the keys in order of first
    appearance. *)
Definition pd_DataFrame (recs : list PyDict) : DataFrame :=
  mkDataFrame (foldl add_keys [] recs) recs.

Definition cell_of (d : PyDict) (col : string) : Value :=
  default VNone (dict_get col d).

(** [df[cols]]: a label that is not a column is a [KeyError]. *)
Definition df_select (df : DataFrame) (cols : list string) : PyResult DataFrame :=
  match List.find (fun c => negb (bool_decide (c ∈ columns df))) cols with
  | Some c => Raise (KeyError (VStr c))
  | None => Ok (mkDataFrame cols (records df))
  end.

(** [df[df[col] == v]] *)
Definition df_where_eq (df : DataFrame) (col : string) (v : Value)
  : PyResult DataFrame :=
  if bool_decide (col ∈ columns df)
  then Ok (mkDataFrame (columns df)
             (List.filter (fun d => bool_decide (cell_of d col = v)) (records df)))
  else Raise (KeyError (VStr col)).

(** [df.empty]: some axis has length zero. *)
Definition df_empty (df : DataFrame) : bool :=
  match columns df, records df with
  | _ :: _, _ :: _ => false
  | _, _ => true
  end.

Definition row_writes (row : nat) (vals : list Value) : list (nat * nat * Value) :=
  imap (fun col v => (row, col, v)) vals.

(** The worksheet a frame is written to: the header in the start row and one
    row per record. *)
Definition excel_sheet (df : DataFrame) (sheet_name : string) (startrow : nat)
  : Worksheet :=
  mkWorksheet sheet_name
    (row_writes startrow (VStr <$> columns df)
     ++ concat (imap (fun i d => row_writes (startrow + 1 + i)
                                   (cell_of d <$> columns df))
                     (records df)))
    [] None [].

(** Excel's sheet size, as pandas checks it. *)
Definition max_rows : Z := 1048576.
Definition max_cols : Z := 16384.

(** [df.to_excel(writer, sheet_name=..., index=False, startrow=...)]: a
    frame with more rows or columns than a sheet has is a [ValueError]. *)
Definition to_excel (df : DataFrame) (sheet_name : string) (startrow : nat)
  : PyResult Worksheet :=
  if (Z.of_nat (length (records df)) <=? max_rows)
     && (Z.of_nat (length (columns df)) <=? max_cols)
  then Ok (excel_sheet df sheet_name startrow)
  else Raise ValueError.

(** ** The output file *)

(** The last component of a path (POSIX separators). *)
Fixpoint basename (p : list ascii) : list ascii :=
  match p with
  | [] => []
  | c :: p' =>
      if existsb (Ascii.eqb "/") p' then basename p'
      else if Ascii.eqb c "/" then p' else p
  end.

(** The part of a name from its last dot on, when there is one. *)
Fixpoint from_last_dot (name : list ascii) : option (list ascii * list ascii) :=
  match name with
  | [] => None
  | c :: name' =>
      match from_last_dot name' with
      | Some (stem, ext) => Some (c :: stem, ext)
      | None => if Ascii.eqb c "." then Some ([], name) else None
      end
  end.

(** [os.path.splitext(path)[-1]]: the extension starts at the last dot of
    the last component, unless only dots come before it. *)
Definition splitext_ext (path : string) : string :=
  match from_last_dot (basename (String.list_ascii_of_string path)) with
  | Some (stem, ext) =>
      if forallb (Ascii.eqb ".") stem then ""
      else String.string_of_list_ascii ext
  | None => ""
  end.

(** [ext in extension] on strings. *)
Fixpoint str_contains (ext extension : string) : bool :=
  String.prefix ext extension
  || match extension with
     | EmptyString => false
     | String _ rest => str_contains ext rest
     end.

(** [ExcelWriter.check_extension] of the xlsxwriter engine, whose only
    supported extension is [.xlsx]: one leading dot is dropped and the rest
    has to occur in it. *)
Definition check_extension (ext : string) : bool :=
  let ext := match ext with String "." rest => rest | _ => ext end in
  str_contains ext ".xlsx".

(** [pd.ExcelWriter(output_file, engine='xlsxwriter')]: the extension is
    checked, then the file is opened for writing; [writable] tells whether
    a path can be opened. *)
Definition pd_ExcelWriter (writable : string -> bool) (output_file : string)
  : PyResult unit :=
  if check_extension (splitext_ext output_file) then
    if writable output_file then Ok () else Raise OSError
  else Raise ValueError.

(** ** Report composer *)

Definition severity_names : list string :=
  ["Critical"; "High"; "Medium"; "Low"; "Info"].

Definition init_severity_counts : gmap string Z :=
  <["Critical" := 0]> (<["High" := 0]> (<["Medium" := 0]> (<["Low" := 0]>
    (<["Info" := 0]> ∅)))).

(** [SEVERITY_MAP.get(x)] for an arbitrary value [x]. *)
Definition severity_map_get (x : Value) : option string :=
  match x with
  | VInt z => SEVERITY_MAP !! z
  | _ => None
  end.

Definition label_counts_item (severity_counts : gmap string Z) (k : string)
  : PyResult Z :=
  match severity_counts !! k with
  | Some n => Ok n
  | None => Raise (KeyError (VStr k))
  end.

(** The body of [for v in vulnerabilities] in [create_dashboard_chart]. *)
Definition tally_body (severity_counts : gmap string Z) (v : PyDict)
  : PyResult (gmap string Z) :=
  sev ← dict_item "Severity" v;
  match severity_map_get sev with
  | Some label =>
      if bool_decide (label = "") then Ok severity_counts
      else n ← label_counts_item severity_counts label;
           Ok (<[label := n + 1]> severity_counts)
  | None => Ok severity_counts
  end.

(** The body of [for sev in ['Critical', ...]]: two writes, then [row += 1]. *)
Definition summary_body (severity_counts : gmap string Z)
    (st : Worksheet * nat) (sev : string) : PyResult (Worksheet * nat) :=
  let '(worksheet, row) := st in
  n ← label_counts_item severity_counts sev;
  Ok (ws_write (ws_write worksheet row 0 (VStr sev)) row 1 (VInt n), S row).

Definition dashboard_chart : Chart :=
  mkChart "column" "Vulnerabilities by Severity"
          "=Home!$A$21:$A$25" "=Home!$B$21:$B$25"
          ((fun sev => COLORS !! sev) <$> severity_names)
          "Scan Summary" 10.

Definition create_dashboard_chart (worksheet : Worksheet)
    (hosts_data vulnerabilities : list PyDict) : PyResult Worksheet :=
  severity_counts ← for_each tally_body vulnerabilities init_severity_counts;
  worksheet ← ws_write_a1 worksheet "A20" (VStr "Severity");
  worksheet ← ws_write_a1 worksheet "B20" (VStr "Count");
  '(worksheet, _) ← for_each (summary_body severity_counts) severity_names
                             (worksheet, 20%nat);
  Ok (insert_chart worksheet "D2" dashboard_chart).

Definition len {A} (l : list A) : Value := VInt (Z.of_nat (length l)).

Definition host_cols : list string :=
  ["IP Address"; "FQDN"; "Operating System"; "Critical"; "High"; "Medium";
   "Low"; "Info"; "Total"].

Definition disp_cols : list string :=
  ["IP Address"; "FQDN"; "Port"; "Protocol"; "Service"; "Plugin ID";
   "Plugin Name"; "CVSS Base Score"; "Description"; "Solution"].

(** [SEVERITY_MAP[severity_val]] and [COLORS[sev_label]] *)
Definition severity_map_item (severity_val : Z) : PyResult string :=
  match SEVERITY_MAP !! severity_val with
  | Some l => Ok l
  | None => Raise (KeyError (VInt severity_val))
  end.

Definition colors_item (label : string) : PyResult string :=
  match COLORS !! label with
  | Some c => Ok c
  | None => Raise (KeyError (VStr label))
  end.

(** The body of [for severity_val in [4, 3, 2, 1, 0]]; the state is the list
    of worksheets of the workbook. *)
Definition severity_sheet_body (df_vulns : DataFrame) (sheets : list Worksheet)
    (severity_val : Z) : PyResult (list Worksheet) :=
  sev_label ← severity_map_item severity_val;
  let sheet_name := sev_label in
  subset ← df_where_eq df_vulns "Severity" (VInt severity_val);
  if negb (df_empty subset) then
    shown ← df_select subset disp_cols;
    ws ← to_excel shown sheet_name 0;
    color ← colors_item sev_label;
    let ws := set_tab_color ws (Some color) in
    let ws := set_column ws "A:B" 18 in
    let ws := set_column ws "G:G" 40 in
    let ws := set_column ws "I:J" 50 in
    Ok (sheets ++ [ws])
  else Ok sheets.

(** [write_excel], up to [writer.close()]: the worksheets of the workbook in
    creation order.  [writable] tells which paths can be opened for writing
    and [scan_date] is the formatted [datetime.now()]. *)
Definition write_excel (writable : string -> bool)
    (hosts_data vulnerabilities compliance_items : list PyDict)
    (output_file scan_date : string) : PyResult (list Worksheet) :=
  _ ← pd_ExcelWriter writable output_file;
  let home_df := pd_DataFrame
    [[ ("Scan Date", VStr scan_date);
       ("Total Hosts", len hosts_data);
       ("Total Vulnerabilities", len vulnerabilities);
       ("Total Compliance Checks", len compliance_items) ]] in
  worksheet ← to_excel home_df "Home" 0;
  let worksheet := ws_write worksheet 3 0 (VStr "Host Summary") in
  worksheet ← create_dashboard_chart worksheet hosts_data vulnerabilities;
  let sheets := [worksheet] in
  sheets ←
    match hosts_data with
    | _ :: _ =>
        df_hosts ← df_select (pd_DataFrame hosts_data) host_cols;
        ws ← to_excel df_hosts "Host Summary" 0;
        let ws := set_column ws "A:B" 20 in
        let ws := set_column ws "C:C" 30 in
        Ok (sheets ++ [ws])
    | [] => Ok sheets
    end;
  sheets ←
    match vulnerabilities with
    | _ :: _ =>
        for_each (severity_sheet_body (pd_DataFrame vulnerabilities))
                 [4; 3; 2; 1; 0] sheets
    | [] => Ok sheets
    end;
  match compliance_items with
  | _ :: _ =>
      ws ← to_excel (pd_DataFrame compliance_items) "Compliance" 0;
      let ws := set_tab_color ws (Some "#800080") in
      let ws := set_column ws "A:D" 15 in
      let ws := set_column ws "H:K" 25 in
      Ok (sheets ++ [ws])
  | [] => Ok sheets
  end.

(** ** [main] *)

(** What a run leaves behind: the lines printed, the workbooks saved and how
    the process ended. *)
Record Run : Type := mkRun {
  stdout : list string;
  files : list (string * list Worksheet);
  outcome : PyResult unit
}.

Definition printed_by (e : PyError) : list string :=
  match e with
  | SystemExit _ msg => [msg]
  | _ => []
  end.

Definition show_len {A} (l : list A) : string := pretty (length l).

(** The name of the workbook: the output argument unless it is missing or
    empty. *)
Definition output_name (args_output : option string) (timestamp : string)
  : string :=
  match args_output with
  | Some (String c o) => String c o
  | _ => "nessus_report_" +:+ timestamp +:+ ".xlsx"
  end.

(** [args_file] and [args_output] are the parsed arguments, [timestamp] and
    [scan_date] the two formatted readings of the clock.  The workbook is
    saved by [writer.close()], the last step of [write_excel]. *)
Definition main (fs : string -> FileState) (writable : string -> bool)
    (args_file : string) (args_output : option string)
    (timestamp scan_date : string) : Run :=
  let output_file := output_name args_output timestamp in
  let out1 := ["Parsing " +:+ args_file +:+ "..."] in
  match parse_nessus_xml fs args_file with
  | Raise e => mkRun (out1 ++ printed_by e) [] (Raise e)
  | Ok (hosts, vulns, compliance) =>
      let out2 := out1 ++
        ["Found " +:+ show_len hosts +:+ " hosts, " +:+ show_len vulns
           +:+ " vulnerabilities, " +:+ show_len compliance
           +:+ " compliance checks."] in
      match write_excel writable hosts vulns compliance output_file
                        scan_date with
      | Raise e => mkRun out2 [] (Raise e)
      | Ok sheets =>
          mkRun (out2 ++ ["Report generated: " +:+ output_file])
                [(output_file, sheets)] (Ok ())
      end
  end.

(** ** The document as the properties below read it

    These definitions do not come from the program: they name the parts of
    a document (its host elements, the items of a host, the record an item
    stands for) so that the results of the loops can be compared with them. *)

Definition child_elems (name : string) (e : Element) : list Element :=
  List.filter (has_tag name) (children e).

(** The host elements under the report container, in document order. *)
Definition report_hosts (root : Element) : list Element :=
  match head (child_elems "Report" root) with
  | Some report => child_elems "ReportHost" report
  | None => []
  end.

(** The finding items of a host element, in document order. *)
Definition report_items (report_host : Element) : list Element :=
  child_elems "ReportItem" report_host.

(** The [tag] elements of the property sub-tree of a host element. *)
Definition host_tags (report_host : Element) : list Element :=
  match head (child_elems "HostProperties" report_host) with
  | Some hp => child_elems "tag" hp
  | None => []
  end.

(** An identity field is absent when no [tag] of the property sub-tree
    carries its name; a host without a property sub-tree has no [tag]s. *)
Definition field_absent (report_host : Element) (key : string) : Prop :=
  Forall (fun t => attrib t !! "name" ≠ Some key) (host_tags report_host).

Definition host_field (report_host : Element) (key : string) : option string :=
  props_get (collect_props (host_tags report_host)) key.

(** The record an item is extracted to, when its extraction succeeds. *)
Definition item_record
    (dict_of : string -> option string -> option string -> Element -> Z
               -> PyResult PyDict)
    (file_path : string) (ip fqdn : option string) (item : Element)
  : option PyDict :=
  match py_int (attrib item !! "severity") with
  | Ok severity =>
      match dict_of file_path ip fqdn item severity with
      | Ok d => Some d
      | Raise _ => None
      end
  | Raise _ => None
  end.

(** The FindingRecords of a list of items: one per item that is not a
    compliance item, in the order of the items. *)
Definition findings_of (file_path : string) (ip fqdn : option string)
    (items : list Element) : list PyDict :=
  omap (fun item => if is_compliance item then None
                    else item_record vuln_dict file_path ip fqdn item) items.

(** The ComplianceRecords of a list of items: one per compliance item. *)
Definition compliance_of (file_path : string) (ip fqdn : option string)
    (items : list Element) : list PyDict :=
  omap (fun item => if is_compliance item
                    then item_record compliance_dict file_path ip fqdn item
                    else None) items.

Definition host_findings (file_path : string) (report_host : Element)
  : list PyDict :=
  findings_of file_path (host_field report_host "host-ip")
              (host_field report_host "host-fqdn") (report_items report_host).

Definition host_compliance (file_path : string) (report_host : Element)
  : list PyDict :=
  compliance_of file_path (host_field report_host "host-ip")
                (host_field report_host "host-fqdn") (report_items report_host).

(** The keys of [host_vuln_counts] are the five known ordinals. *)
Definition counts_dom (host_vuln_counts : gmap Z Z) : Prop :=
  forall z, is_Some (host_vuln_counts !! z) <-> 0 <= z <= 4.

(** The integer a record holds under a key. *)
Definition int_field (key : string) (d : PyDict) : option Z :=
  match dict_get key d with
  | Some (VInt z) => Some z
  | _ => None
  end.

(** What the HostRecord of a host element is: its three identity fields,
    five counts, and their sum as the total, which is the number of
    FindingRecords of the host. *)
Definition host_record_ok (file_path : string) (report_host : Element)
    (d : PyDict) : Prop :=
  exists c4 c3 c2 c1 c0 : Z,
    d = [ ("IP Address", of_opt (host_field report_host "host-ip"));
          ("FQDN", of_opt (host_field report_host "host-fqdn"));
          ("Operating System",
           of_opt (host_field report_host "operating-system"));
          ("Critical", VInt c4);
          ("High", VInt c3);
          ("Medium", VInt c2);
          ("Low", VInt c1);
          ("Info", VInt c0);
          ("Total", VInt (c4 + c3 + c2 + c1 + c0)) ] /\
    c4 + c3 + c2 + c1 + c0
    = Z.of_nat (length (host_findings file_path report_host)).

(** Every item of a host is in exactly one of the two streams: the
    FindingRecords are as many as the items that are not compliance items,
    the ComplianceRecords as many as the compliance items. *)
Definition host_routed (file_path : string) (report_host : Element) : Prop :=
  length (host_findings file_path report_host)
  = length (List.filter (fun item => negb (is_compliance item))
                        (report_items report_host)) /\
  length (host_compliance file_path report_host)
  = length (List.filter is_compliance (report_items report_host)).

(** The writes that put each label in the cell of [cats] and each count in
    the cell of [vals] at the same position, row after row. *)
Fixpoint paired_writes (cats vals : list (nat * nat)) (labels : list string)
    (counts : list Z) : list (nat * nat * Value) :=
  match cats, vals, labels, counts with
  | c :: cats', v :: vals', l :: labels', n :: counts' =>
      (c, VStr l) :: (v, VInt n) :: paired_writes cats' vals' labels' counts'
  | _, _, _, _ => []
  end.

(** The sheets of the workbook, as the properties below read them. *)
Definition host_summary_sheet (hosts_data : list PyDict) : Worksheet :=
  set_column
    (set_column (excel_sheet (mkDataFrame host_cols hosts_data) "Host Summary" 0)
                "A:B" 20)
    "C:C" 30.

(** The FindingRecords of one severity, in the order of the list. *)
Definition with_severity (severity_val : Z) (vulns : list PyDict) : list PyDict :=
  List.filter (fun d => bool_decide (cell_of d "Severity" = VInt severity_val))
              vulns.

(** The sheet of one severity: none when no FindingRecord has it. *)
Definition severity_sheet (vulns : list PyDict) (severity_val : Z)
  : option Worksheet :=
  label ← SEVERITY_MAP !! severity_val;
  match with_severity severity_val vulns with
  | [] => None
  | d :: recs =>
      color ← COLORS !! label;
      Some (set_column
              (set_column
                 (set_column
                    (set_tab_color
                       (excel_sheet (mkDataFrame disp_cols (d :: recs)) label 0)
                       (Some color))
                    "A:B" 18)
                 "G:G" 40)
              "I:J" 50)
  end.

Definition compliance_sheet (comps : list PyDict) : Worksheet :=
  set_column
    (set_column
       (set_tab_color (excel_sheet (pd_DataFrame comps) "Compliance" 0)
                      (Some "#800080"))
       "A:D" 15)
    "H:K" 25.

(** The Home sheet as it is when the dashboard chart is put on it. *)
Definition home_sheet (hosts_data vulnerabilities compliance_items : list PyDict)
    (scan_date : string) : Worksheet :=
  ws_write
    (excel_sheet (pd_DataFrame
                 [[ ("Scan Date", VStr scan_date);
                    ("Total Hosts", len hosts_data);
                    ("Total Vulnerabilities", len vulnerabilities);
                    ("Total Compliance Checks", len compliance_items) ]])
              "Home" 0)
    3 0 (VStr "Host Summary").

(** A FindingRecord as the extractor builds it, with a known severity, and
    a HostRecord as it builds it. *)
Definition finding_ok (d : PyDict) : Prop :=
  exists file_path ip fqdn item severity,
    0 <= severity <= 4 /\
    vuln_dict file_path ip fqdn item severity = Ok d.

Definition host_ok (d : PyDict) : Prop :=
  exists file_path report_host, host_record_ok file_path report_host d.

(** The keys of a FindingRecord, in the order of the dictionary literal. *)
Definition vuln_cols : list string :=
  ["File"; "IP Address"; "FQDN"; "Port"; "Protocol"; "Service"; "Plugin ID";
   "Plugin Name"; "Plugin Family"; "Severity"; "Severity Label";
   "CVSS Base Score"; "CVSS Vector"; "Description"; "Solution"; "Synopsis";
   "Exploitability Ease"].

(** The five labels are keys of [severity_counts]. *)
Definition label_dom (severity_counts : gmap string Z) : Prop :=
  Forall (fun label => is_Some (severity_counts !! label)) severity_names.

(** ** Sample documents *)

Definition elem (name : string) (attrs : list (string * string))
    (txt : option string) (kids : list Element) : Element :=
  mkElement name (list_to_map attrs) txt kids.

Definition sample_item (severity family : string) : Element :=
  elem "ReportItem"
       [("port", "443"); ("svc_name", "www"); ("protocol", "tcp");
        ("severity", severity); ("pluginID", "10863");
        ("pluginName", "SSL Certificate Information");
        ("pluginFamily", family)]
       None
       [elem "description" [] (Some "The certificate was read.") [];
        elem "solution" [] None []].

(** One host with address 10.0.0.5 and no FQDN. *)
Definition sample_host (items : list Element) : Element :=
  elem "ReportHost" [("name", "10.0.0.5")] None
       (elem "HostProperties" [] None
             [elem "tag" [("name", "host-ip")] (Some "10.0.0.5") [];
              elem "tag" [("name", "operating-system")] (Some "Linux") []]
        :: items).

Definition sample_doc (report_hosts : list Element) : Element :=
  elem "NessusClientData_v2" [] None
       [elem "Policy" [] None []; elem "Report" [("name", "scan")] None report_hosts].

(** The string with the given UTF-8 bytes, and a run of [n] digits 1. *)
Definition str_of_bytes (l : list N) : string :=
  String.string_of_list_ascii (ascii_of_N <$> l).

Definition ones (n : nat) : string :=
  String.string_of_list_ascii (replicate n "1"%char).

(** Every path can be opened for writing. *)
Definition always_writable (path : string) : bool := true.

(** A file system with one scan export. *)
Definition one_file (root : Element) (path : string) : FileState :=
  if bool_decide (path = "scan.nessus") then Document root else NoFile.

Definition doc_two_findings : Element :=
  sample_doc [sample_host [sample_item "4" "General"; sample_item "2" "Web Servers"]].

Definition doc_unknown_severity : Element :=
  sample_doc [sample_host [sample_item "5" "General"]].

Definition doc_bad_severity : Element :=
  sample_doc [sample_host [sample_item "abc" "General"]].

Definition doc_compliance_item : Element :=
  sample_doc [sample_host [sample_item "0" "Policy Compliance"]].

Definition doc_no_hosts : Element := sample_doc [].

(** A host element without a property sub-tree. *)
Definition doc_bare_host : Element :=
  sample_doc [elem "ReportHost" [("name", "h")] None [sample_item "1" "General"]].

(** What the extractor returns on the two-findings sample. *)
Definition two_findings_parsed : ParseState :=
  Eval vm_compute in
    match parse_nessus_xml (one_file doc_two_findings) "scan.nessus" with
    | Ok st => st
    | Raise _ => ([], [], [])
    end.

Definition two_findings_hosts : list PyDict := fst (fst two_findings_parsed).
Definition two_findings_vulns : list PyDict := snd (fst two_findings_parsed).
Definition two_findings_comps : list PyDict := snd two_findings_parsed.

Definition bare_host_parsed : ParseState :=
  Eval vm_compute in
    match parse_nessus_xml (one_file doc_bare_host) "scan.nessus" with
    | Ok st => st
    | Raise _ => ([], [], [])
    end.

(** The Home sheet of the two-findings sample before and after the
    dashboard chart is put on it. *)
Definition two_findings_home_before : Worksheet :=
  home_sheet two_findings_hosts two_findings_vulns two_findings_comps
             "2024-01-01 00:00:00".

Definition two_findings_home : Worksheet :=
  Eval vm_compute in
    match create_dashboard_chart two_findings_home_before two_findings_hosts
                                 two_findings_vulns with
    | Ok w => w
    | Raise _ => two_findings_home_before
    end.

(** The workbook [write_excel] builds for the two-findings sample. *)
Definition two_findings_sheets : list Worksheet :=
  Eval vm_compute in
    match write_excel always_writable two_findings_hosts two_findings_vulns
                      two_findings_comps "report.xlsx"
                      "2024-01-01 00:00:00" with
    | Ok sheets => sheets
    | Raise _ => []
    end.

Definition two_findings_host_summary : Worksheet :=
  Eval vm_compute in host_summary_sheet two_findings_hosts.

(** ** Documents the extractor accepts *)

(** An item the extractor takes: it is not a compliance item and its
    severity attribute is an integer from 0 to 4. *)
Definition item_accepted (item : Element) : Prop :=
  is_compliance item = false /\
  exists z, py_int (attrib item !! "severity") = Ok z /\ 0 <= z <= 4.

(** A document the extractor takes: a report container among the children
    of the root, and only accepted items under its host elements. *)
Definition document_accepted (root : Element) : Prop :=
  is_Some (head (child_elems "Report" root)) /\
  Forall (fun report_host => Forall item_accepted (report_items report_host))
         (report_hosts root).

Definition doc_no_severity : Element :=
  sample_doc
    [sample_host [sample_item "3" "General";
                  elem "ReportItem" [("pluginFamily", "General")] None []]].

(** The exception an item that is not accepted raises in the item loop. *)
Definition item_error (item : Element) : PyError :=
  match py_int (attrib item !! "severity") with
  | Raise e => e
  | Ok z =>
      if is_compliance item
      then SyntaxError "prefix 'cm' not found in prefix map"
      else KeyError (VInt z)
  end.

Definition doc_second_host_bad : Element :=
  sample_doc
    [sample_host [sample_item "1" "General"];
     sample_host [sample_item "0" "General"; sample_item "7" "General";
                  sample_item "abc" "General"]].

(** ** Counts and identity fields of a host, as the properties read them *)

(** The number of FindingRecords of one severity. *)
Definition severity_count (z : Z) (vulns : list PyDict) : Z :=
  Z.of_nat (length (with_severity z vulns)).

(** Each count of a HostRecord is the number of the host's FindingRecords
    of that severity. *)
Definition host_counts_ok (file_path : string) (report_host : Element)
    (d : PyDict) : Prop :=
  int_field "Critical" d
  = Some (severity_count 4 (host_findings file_path report_host)) /\
  int_field "High" d
  = Some (severity_count 3 (host_findings file_path report_host)) /\
  int_field "Medium" d
  = Some (severity_count 2 (host_findings file_path report_host)) /\
  int_field "Low" d
  = Some (severity_count 1 (host_findings file_path report_host)) /\
  int_field "Info" d
  = Some (severity_count 0 (host_findings file_path report_host)).

(** The [tag] elements that carry a name. *)
Definition named_tags (key : string) (tags : list Element) : list Element :=
  List.filter (fun t => bool_decide (attrib t !! "name" = Some key)) tags.

(** The text of the last [tag] of the property sub-tree with a name, [None]
    when that tag has no text, N/A when no tag has the name. *)
Definition last_tag_text (report_host : Element) (key : string)
  : option string :=
  match last (named_tags key (host_tags report_host)) with
  | Some t => text t
  | None => Some "N/A"
  end.

(** The Total field of a HostRecord. *)
Definition host_total (d : PyDict) : Z := default 0 (int_field "Total" d).

(** A host whose address is given twice and whose FQDN tag is empty. *)
Definition doc_repeated_tags : Element :=
  sample_doc
    [elem "ReportHost" [("name", "h")] None
          [elem "HostProperties" [] None
                [elem "tag" [("name", "host-ip")] (Some "10.0.0.5") [];
                 elem "tag" [("name", "host-fqdn")] None [];
                 elem "tag" [("name", "host-ip")] (Some "10.0.0.9") []];
           sample_item "2" "General"]].

Definition repeated_tags_parsed : ParseState :=
  Eval vm_compute in
    match parse_nessus_xml (one_file doc_repeated_tags) "scan.nessus" with
    | Ok st => st
    | Raise _ => ([], [], [])
    end.

(** ** Sheets and dashboard counts, as the properties read them *)

(** The name of the sheet of one severity: none when no FindingRecord has
    it. *)
Definition severity_sheet_name (vulns : list PyDict) (severity_val : Z)
  : option string :=
  match with_severity severity_val vulns with
  | [] => None
  | _ :: _ => SEVERITY_MAP !! severity_val
  end.

(** A record with a Severity key. *)
Definition has_severity (d : PyDict) : Prop := is_Some (dict_get "Severity" d).

(** Records as [write_excel] may be handed them: one without a Severity key,
    one with a severity that is not an integer, one with severity 9. *)
Definition odd_records : list PyDict :=
  [ [("Severity", VInt 4); ("IP Address", VStr "10.0.0.5")];
    [("Severity", VStr "high")];
    [("Severity", VInt 9)];
    [("Severity", VInt 4)] ].

Definition odd_records_home : Worksheet :=
  Eval vm_compute in
    match create_dashboard_chart (mkWorksheet "Home" [] [] None []) []
                                 odd_records with
    | Ok w => w
    | Raise _ => mkWorksheet "Home" [] [] None []
    end.

(** * Theorems *)

(** ** The conversions and paths on sample inputs *)

Example int_of_string_5 : int_of_string "5" = Some 5.
Proof. reflexivity. Qed.
Example int_of_string_neg : int_of_string " -12 " = Some (-12).
Proof. reflexivity. Qed.
Example int_of_string_abc : int_of_string "abc" = None.
Proof. reflexivity. Qed.
Example int_of_string_empty : int_of_string "" = None.
Proof. reflexivity. Qed.
Example int_of_string_grouped : int_of_string "1_0" = Some 10.
Proof. reflexivity. Qed.
Example int_of_string_fullwidth :
  int_of_string (str_of_bytes [239; 188; 147]%N) = Some 3.
Proof. vm_compute. reflexivity. Qed.

Example int_of_string_no_break_space :
  int_of_string (str_of_bytes [194; 160; 51]%N) = Some 3.
Proof. vm_compute. reflexivity. Qed.

Example int_of_string_file_separator :
  int_of_string (str_of_bytes [28; 53]%N) = None.
Proof. vm_compute. reflexivity. Qed.

Example int_of_string_4300_digits : is_Some (int_of_string (ones 4300)).
Proof. vm_compute. eauto. Qed.

Example int_of_string_4301_digits : int_of_string (ones 4301) = None.
Proof. vm_compute. reflexivity. Qed.

Example check_extension_xlsx :
  pd_ExcelWriter always_writable "report.xlsx" = Ok ().
Proof. reflexivity. Qed.

Example check_extension_txt :
  pd_ExcelWriter always_writable "report.txt" = Raise ValueError.
Proof. reflexivity. Qed.

Example check_extension_upper :
  pd_ExcelWriter always_writable "report.XLSX" = Raise ValueError.
Proof. reflexivity. Qed.

Example check_extension_xlsm :
  pd_ExcelWriter always_writable "report.xlsm" = Raise ValueError.
Proof. reflexivity. Qed.

Example check_extension_none :
  pd_ExcelWriter always_writable "out/report" = Ok ().
Proof. reflexivity. Qed.

Example int_of_string_underscores : int_of_string "1__0" = None.
Proof. reflexivity. Qed.
Example path_name_plain : path_name "ReportItem" = Ok "ReportItem".
Proof. reflexivity. Qed.
Example path_name_prefixed :
  path_name "cm:compliance-result"
  = Raise (SyntaxError "prefix 'cm' not found in prefix map").
Proof. reflexivity. Qed.

(** ** The error monad and the loops *)

Lemma bind_Ok {A B} (m : PyResult A) (k : A -> PyResult B) (b : B) :
  m ≫= k = Ok b -> exists a, m = Ok a /\ k a = Ok b.
Proof. destruct m as [a|e]; [eauto | discriminate]. Qed.

Lemma Ok_inj {A} (a b : A) : Ok a = Ok b -> a = b.
Proof. now intros [= ->]. Qed.

Lemma bind_unit {A B} (a : A) (k : A -> PyResult B) : Ok a ≫= k = k a.
Proof. reflexivity. Qed.

Lemma bind_Raise {A B} (m : PyResult A) (k : A -> PyResult B) (e : PyError) :
  m = Raise e -> m ≫= k = Raise e.
Proof. now intros ->. Qed.

Ltac inv_bind H :=
  let a := fresh "a" in
  let Ha := fresh "Ha" in
  apply bind_Ok in H; destruct H as (a & Ha & H).

(** A loop that ends normally ran its body on every element: an invariant
    kept by every normal step holds at the end. *)
Lemma for_each_invariant {A S} (body : S -> A -> PyResult S)
    (I : list A -> S -> Prop) (l : list A) (s0 s : S) :
  I [] s0 ->
  (forall done x st st', I done st -> body st x = Ok st' ->
                         I (done ++ [x]) st') ->
  for_each body l s0 = Ok s -> I l s.
Proof.
  intros H0 Hstep.
  assert (G : forall rest done st, I done st ->
            for_each body rest st = Ok s -> I (done ++ rest) s).
  { induction rest as [|x rest IH]; intros done st Hd Hrun; simpl in Hrun.
    - injection Hrun as <-. now rewrite app_nil_r.
    - inv_bind Hrun.
      replace (done ++ x :: rest) with ((done ++ [x]) ++ rest)
        by now rewrite <- app_assoc.
      eauto. }
  intros Hrun. exact (G l [] s0 H0 Hrun).
Qed.

(** A loop whose state keeps an invariant raises as soon as one element
    makes the body raise in every state that has the invariant. *)
Lemma for_each_raises {A S} (body : S -> A -> PyResult S) (P : S -> Prop)
    (l : list A) (x : A) :
  (forall st y st', P st -> body st y = Ok st' -> P st') ->
  (forall st, P st -> exists e, body st x = Raise e) ->
  In x l ->
  forall s0, P s0 -> exists e, for_each body l s0 = Raise e.
Proof.
  intros Hkeep Hbad.
  induction l as [|y l IH]; intros Hin s0 Hs0; [destruct Hin|].
  simpl. destruct (body s0 y) as [s1|e] eqn:Hy.
  - destruct Hin as [->|Hin].
    + destruct (Hbad s0 Hs0) as [e He]. congruence.
    + simpl. eauto.
  - simpl. eauto.
Qed.

(** ** Element paths of the program *)

Lemma findall_plain (elem : Element) (name : string) :
  path_name name = Ok name -> findall elem name = Ok (child_elems name elem).
Proof. unfold findall. now intros ->. Qed.

Lemma find_plain (elem : Element) (name : string) :
  path_name name = Ok name -> find elem name = Ok (head (child_elems name elem)).
Proof. intros H. unfold find. now rewrite (findall_plain _ _ H). Qed.

Lemma findtext_plain (elem : Element) (name : string) :
  path_name name = Ok name -> exists t, findtext elem name = Ok t.
Proof. intros H. unfold findtext. rewrite (find_plain _ _ H). simpl. eauto. Qed.

Lemma findtext_prefixed (elem : Element) (path : string) (e : PyError) :
  path_name path = Raise e -> findtext elem path = Raise e.
Proof. unfold findtext, find, findall. now intros ->. Qed.

Lemma vuln_dict_Ok file_path ip fqdn item severity :
  exists d, vuln_dict file_path ip fqdn item severity = Ok d.
Proof.
  unfold vuln_dict.
  repeat match goal with
  | |- context [findtext item ?n] =>
      let t := fresh "t" in
      let Ht := fresh "Ht" in
      destruct (findtext_plain item n eq_refl) as [t Ht]; rewrite Ht; simpl
  end.
  eauto.
Qed.

(** Every compliance path has the prefix [cm] and none is given a namespace
    map: building the compliance dictionary raises at its first [findtext]. *)
Lemma compliance_dict_raises file_path ip fqdn item severity :
  compliance_dict file_path ip fqdn item severity
  = Raise (SyntaxError "prefix 'cm' not found in prefix map").
Proof.
  unfold compliance_dict.
  now rewrite (findtext_prefixed item "cm:compliance-audit-file" _ eq_refl).
Qed.

Lemma host_props_of_eq (report_host : Element) :
  host_props_of report_host = Ok (collect_props (host_tags report_host)).
Proof.
  unfold host_props_of, host_tags.
  rewrite (find_plain report_host "HostProperties" eq_refl).
  destruct (head (child_elems "HostProperties" report_host)) as [hp|];
    [|reflexivity].
  change (findall hp "tag" ≫= (fun tags => Ok (collect_props tags))
          = Ok (collect_props (child_elems "tag" hp))).
  now rewrite (findall_plain hp "tag" eq_refl).
Qed.

(** ** The per-host counts *)

Lemma counts_sum_delete (c : gmap Z Z) (k n : Z) :
  c !! k = Some n -> counts_sum c = n + counts_sum (delete k c).
Proof.
  intros H. unfold counts_sum.
  rewrite (map_fold_delete_L _ 0 k n c); [reflexivity | | exact H].
  intros; simpl; lia.
Qed.

Lemma counts_sum_incr (c : gmap Z Z) (k n : Z) :
  c !! k = Some n -> counts_sum (<[k := n + 1]> c) = counts_sum c + 1.
Proof.
  intros H. rewrite (counts_sum_delete c k n H).
  rewrite <- (insert_delete_eq c k (n + 1)).
  unfold counts_sum at 1.
  rewrite map_fold_insert_L.
  - fold (counts_sum (delete k c)). lia.
  - intros; simpl; lia.
  - apply lookup_delete_eq.
Qed.

Lemma init_counts_dom : counts_dom init_counts.
Proof.
  intros z. unfold init_counts. split.
  - intros [n Hn].
    repeat (rewrite lookup_insert in Hn; case_decide; [lia|]).
    now rewrite lookup_empty in Hn.
  - intros Hz.
    assert (z = 0 \/ z = 1 \/ z = 2 \/ z = 3 \/ z = 4) as Hc by lia.
    destruct Hc as [->|[->|[->|[->| ->]]]]; vm_compute; eauto.
Qed.

Lemma counts_incr_Ok (c c' : gmap Z Z) (severity : Z) :
  counts_incr c severity = Ok c' ->
  counts_dom c ->
  0 <= severity <= 4 /\ counts_dom c' /\ counts_sum c' = counts_sum c + 1.
Proof.
  unfold counts_incr, counts_item. intros H Hdom.
  destruct (c !! severity) as [n|] eqn:Hn; [|discriminate].
  simpl in H. injection H as <-.
  split; [apply Hdom; eauto|]. split; [|now apply counts_sum_incr].
  intros z. rewrite lookup_insert. case_decide.
  - subst z. split; [intros _; apply Hdom; eauto | eauto].
  - apply Hdom.
Qed.

(** With the five known keys, the sum of all values is the sum of the five
    counts. *)
Lemma counts_sum_five (c : gmap Z Z) :
  counts_dom c ->
  exists c4 c3 c2 c1 c0,
    c !! 4 = Some c4 /\ c !! 3 = Some c3 /\ c !! 2 = Some c2 /\
    c !! 1 = Some c1 /\ c !! 0 = Some c0 /\
    counts_sum c = c4 + c3 + c2 + c1 + c0.
Proof.
  intros Hdom.
  destruct (proj2 (Hdom 4) ltac:(lia)) as [c4 H4].
  destruct (proj2 (Hdom 3) ltac:(lia)) as [c3 H3].
  destruct (proj2 (Hdom 2) ltac:(lia)) as [c2 H2].
  destruct (proj2 (Hdom 1) ltac:(lia)) as [c1 H1].
  destruct (proj2 (Hdom 0) ltac:(lia)) as [c0 H0].
  exists c4, c3, c2, c1, c0. repeat (split; [assumption|]).
  rewrite (counts_sum_delete c 4 c4 H4).
  rewrite (counts_sum_delete _ 3 c3) by now rewrite lookup_delete_ne.
  rewrite (counts_sum_delete _ 2 c2) by now rewrite !lookup_delete_ne.
  rewrite (counts_sum_delete _ 1 c1) by now rewrite !lookup_delete_ne.
  rewrite (counts_sum_delete _ 0 c0) by now rewrite !lookup_delete_ne.
  assert (E : delete 0 (delete 1 (delete 2 (delete 3 (delete 4 c)))) = ∅).
  { apply map_empty. intros z.
    repeat (rewrite lookup_delete; case_decide; [reflexivity|]).
    destruct (c !! z) eqn:Hz; [|reflexivity].
    assert (0 <= z <= 4) by (apply Hdom; eauto). lia. }
  rewrite E. unfold counts_sum. rewrite map_fold_empty. lia.
Qed.

(** ** The loop over the items of a host *)

Lemma findings_of_app file_path ip fqdn l1 l2 :
  findings_of file_path ip fqdn (l1 ++ l2)
  = findings_of file_path ip fqdn l1 ++ findings_of file_path ip fqdn l2.
Proof. apply omap_app. Qed.

Lemma compliance_of_app file_path ip fqdn l1 l2 :
  compliance_of file_path ip fqdn (l1 ++ l2)
  = compliance_of file_path ip fqdn l1 ++ compliance_of file_path ip fqdn l2.
Proof. apply omap_app. Qed.

(** One normal step of the item loop appends the record of the item to
    exactly one of the two lists, and counts it when it is a finding. *)
Lemma item_body_Ok file_path ip fqdn c v k item c' v' k' :
  item_body file_path ip fqdn (c, v, k) item = Ok (c', v', k') ->
  v' = v ++ findings_of file_path ip fqdn [item] /\
  k' = k ++ compliance_of file_path ip fqdn [item] /\
  (counts_dom c ->
   counts_dom c' /\
   counts_sum c'
   = counts_sum c + Z.of_nat (length (findings_of file_path ip fqdn [item]))).
Proof.
  unfold item_body, findings_of, compliance_of, item_record. simpl.
  intros H. inv_bind H. rewrite Ha.
  destruct (is_compliance item).
  - discriminate.
  - inv_bind H. injection H as <- <- <-.
    split; [reflexivity|]. split; [now rewrite app_nil_r|].
    intros Hdom. destruct (counts_incr_Ok _ _ _ Ha0 Hdom) as (_ & ? & ->).
    split; [assumption|]. simpl. lia.
Qed.

Lemma item_loop_Ok file_path ip fqdn items c0 v0 k0 c v k :
  for_each (item_body file_path ip fqdn) items (c0, v0, k0) = Ok (c, v, k) ->
  v = v0 ++ findings_of file_path ip fqdn items /\
  k = k0 ++ compliance_of file_path ip fqdn items /\
  (counts_dom c0 ->
   counts_dom c /\
   counts_sum c
   = counts_sum c0 + Z.of_nat (length (findings_of file_path ip fqdn items))).
Proof.
  intros Hrun.
  apply (for_each_invariant (item_body file_path ip fqdn)
    (fun done (st : ItemState) =>
       let '(c, v, k) := st in
       v = v0 ++ findings_of file_path ip fqdn done /\
       k = k0 ++ compliance_of file_path ip fqdn done /\
       (counts_dom c0 ->
        counts_dom c /\
        counts_sum c
        = counts_sum c0
          + Z.of_nat (length (findings_of file_path ip fqdn done))))
    items (c0, v0, k0) (c, v, k)); [| |exact Hrun].
  - simpl. rewrite !app_nil_r. split; [reflexivity|]. split; [reflexivity|].
    intros Hd. split; [assumption|]. lia.
  - intros done x [[c1 v1] k1] [[c2 v2] k2] (Hv & Hk & Hc) Hstep.
    apply item_body_Ok in Hstep. destruct Hstep as (Hv2 & Hk2 & Hc2).
    rewrite findings_of_app, compliance_of_app.
    subst v1 k1 v2 k2. rewrite !app_assoc.
    split; [reflexivity|]. split; [reflexivity|].
    intros Hd0. destruct (Hc Hd0) as (Hd & Hs).
    destruct (Hc2 Hd) as (Hd2 & ->). split; [assumption|].
    rewrite Hs, length_app. lia.
Qed.

Lemma item_body_routed file_path ip fqdn st item st' :
  item_body file_path ip fqdn st item = Ok st' ->
  length (findings_of file_path ip fqdn [item])
  = length (List.filter (fun i => negb (is_compliance i)) [item]) /\
  length (compliance_of file_path ip fqdn [item])
  = length (List.filter is_compliance [item]).
Proof.
  destruct st as [[c v] k].
  unfold item_body, findings_of, compliance_of, item_record. simpl.
  intros H. inv_bind H. rewrite Ha.
  destruct (is_compliance item); [discriminate|].
  now inv_bind H.
Qed.

Lemma item_loop_routed file_path ip fqdn items st st' :
  for_each (item_body file_path ip fqdn) items st = Ok st' ->
  length (findings_of file_path ip fqdn items)
  = length (List.filter (fun i => negb (is_compliance i)) items) /\
  length (compliance_of file_path ip fqdn items)
  = length (List.filter is_compliance items).
Proof.
  intros Hrun.
  apply (for_each_invariant (item_body file_path ip fqdn)
    (fun done (_ : ItemState) =>
       length (findings_of file_path ip fqdn done)
       = length (List.filter (fun i => negb (is_compliance i)) done) /\
       length (compliance_of file_path ip fqdn done)
       = length (List.filter is_compliance done))
    items st st'); [now split| |exact Hrun].
  intros done x s1 s2 (Hf & Hc) Hstep.
  apply item_body_routed in Hstep. destruct Hstep as (Hf1 & Hc1).
  rewrite findings_of_app, compliance_of_app, !List.filter_app, !length_app.
  lia.
Qed.

(** ** The loop over the hosts *)

Lemma host_body_routed file_path st report_host st' :
  host_body file_path st report_host = Ok st' ->
  host_routed file_path report_host.
Proof.
  destruct st as [[hosts vulns] comps].
  unfold host_body. rewrite host_props_of_eq.
  rewrite (findall_plain report_host "ReportItem" eq_refl).
  rewrite !bind_unit.
  intros H. inv_bind H. now apply item_loop_routed in Ha.
Qed.

Lemma host_body_Ok file_path hosts vulns comps report_host hosts' vulns' comps' :
  host_body file_path (hosts, vulns, comps) report_host
  = Ok (hosts', vulns', comps') ->
  exists d,
    hosts' = hosts ++ [d] /\
    host_record_ok file_path report_host d /\
    vulns' = vulns ++ host_findings file_path report_host /\
    comps' = comps ++ host_compliance file_path report_host.
Proof.
  unfold host_body. rewrite host_props_of_eq.
  rewrite (findall_plain report_host "ReportItem" eq_refl).
  rewrite !bind_unit.
  fold (host_field report_host "host-ip").
  fold (host_field report_host "host-fqdn").
  fold (host_field report_host "operating-system").
  fold (report_items report_host).
  intros H. inv_bind H. destruct a as [[c v] k].
  apply item_loop_Ok in Ha. destruct Ha as (-> & -> & Hc).
  destruct (Hc init_counts_dom) as (Hdom & Hsum).
  destruct (counts_sum_five c Hdom)
    as (c4 & c3 & c2 & c1 & c0 & H4 & H3 & H2 & H1 & H0 & Hfive).
  unfold host_dict, counts_item in H.
  rewrite H4, H3, H2, H1, H0 in H. simpl in H.
  injection H as <- <- <-.
  eexists. split; [reflexivity|]. split; [|split; reflexivity].
  exists c4, c3, c2, c1, c0. split.
  - now rewrite Hfive.
  - rewrite <- Hfive, Hsum. reflexivity.
Qed.

Lemma report_hosts_of_report (root report : Element) :
  head (child_elems "Report" root) = Some report ->
  report_hosts root = child_elems "ReportHost" report.
Proof. unfold report_hosts. now intros ->. Qed.

(** A normal return of the extractor: the document has a report container,
    and the three lists follow its host elements in document order. *)
Lemma parse_Ok fs file_path hosts vulns comps :
  parse_nessus_xml fs file_path = Ok (hosts, vulns, comps) ->
  exists root,
    fs file_path = Document root /\
    is_Some (head (child_elems "Report" root)) /\
    Forall2 (host_record_ok file_path) (report_hosts root) hosts /\
    vulns = concat (host_findings file_path <$> report_hosts root) /\
    comps = concat (host_compliance file_path <$> report_hosts root).
Proof.
  unfold parse_nessus_xml.
  destruct (fs file_path) as [|e|root]; try discriminate.
  rewrite (find_plain root "Report" eq_refl).
  rewrite !bind_unit.
  destruct (head (child_elems "Report" root)) as [report|] eqn:Hrep;
    [|discriminate].
  rewrite (findall_plain report "ReportHost" eq_refl).
  rewrite !bind_unit.
  rewrite <- (report_hosts_of_report root report Hrep).
  intros Hrun. exists root. split; [reflexivity|]. split; [eauto|].
  apply (for_each_invariant (host_body file_path)
    (fun done (st : ParseState) =>
       let '(hosts, vulns, comps) := st in
       Forall2 (host_record_ok file_path) done hosts /\
       vulns = concat (host_findings file_path <$> done) /\
       comps = concat (host_compliance file_path <$> done))
    (report_hosts root) ([], [], []) (hosts, vulns, comps)); [| |exact Hrun].
  - simpl. repeat split; constructor.
  - intros done x [[h1 v1] k1] [[h2 v2] k2] (Hh & Hv & Hk) Hstep.
    apply host_body_Ok in Hstep.
    destruct Hstep as (d & -> & Hd & -> & ->).
    rewrite !fmap_app, !concat_app. simpl. rewrite !app_nil_r.
    subst v1 k1. repeat split; auto.
    apply Forall2_app; [assumption|]. now constructor.
Qed.

Lemma parse_routed fs file_path root st :
  fs file_path = Document root ->
  parse_nessus_xml fs file_path = Ok st ->
  Forall (host_routed file_path) (report_hosts root).
Proof.
  unfold parse_nessus_xml. intros ->.
  rewrite (find_plain root "Report" eq_refl), !bind_unit.
  destruct (head (child_elems "Report" root)) as [report|] eqn:Hrep;
    [|discriminate].
  rewrite (findall_plain report "ReportHost" eq_refl), !bind_unit.
  rewrite <- (report_hosts_of_report root report Hrep).
  intros Hrun.
  apply (for_each_invariant (host_body file_path)
    (fun done (_ : ParseState) => Forall (host_routed file_path) done)
    (report_hosts root) ([], [], []) st); [constructor| |exact Hrun].
  intros done x s1 s2 Hdone Hstep.
  apply Forall_app. split; [assumption|].
  constructor; [|constructor]. exact (host_body_routed _ _ _ _ Hstep).
Qed.


(** ** Host identity fields *)

Lemma collect_props_absent (tags : list Element) (key : string)
    (m : gmap (option string) (option string)) :
  m !! Some key = None ->
  Forall (fun t => attrib t !! "name" ≠ Some key) tags ->
  foldl (fun host_props t => <[attrib t !! "name" := text t]> host_props) m tags
    !! Some key = None.
Proof.
  revert m. induction tags as [|t tags IH]; intros m Hm Hall; [exact Hm|].
  inversion Hall as [|? ? Ht Hrest]; subst. simpl.
  apply IH; [|assumption]. now rewrite lookup_insert_ne.
Qed.

Lemma host_field_absent (report_host : Element) (key : string) :
  field_absent report_host key -> host_field report_host key = Some "N/A".
Proof.
  intros H. unfold host_field, props_get, collect_props.
  now rewrite (collect_props_absent _ key ∅ (lookup_empty _) H).
Qed.

Lemma no_properties_absent (report_host : Element) (key : string) :
  head (child_elems "HostProperties" report_host) = None ->
  field_absent report_host key.
Proof. unfold field_absent, host_tags. intros ->. constructor. Qed.

(** ** Runs that abort in the extractor *)

Lemma report_hosts_inhabited (root : Element) (report_host : Element) :
  In report_host (report_hosts root) ->
  exists report,
    head (child_elems "Report" root) = Some report /\
    report_hosts root = child_elems "ReportHost" report.
Proof.
  unfold report_hosts.
  destruct (head (child_elems "Report" root)) as [report|]; [eauto|].
  intros [].
Qed.

(** If the body of the item loop raises on some item whatever the lists
    hold, the extractor raises on every document that has such an item. *)
Lemma item_failure_aborts fs file_path root report_host item :
  fs file_path = Document root ->
  In report_host (report_hosts root) ->
  In item (report_items report_host) ->
  (forall ip fqdn c v k,
     counts_dom c -> exists e, item_body file_path ip fqdn (c, v, k) item = Raise e) ->
  exists e, parse_nessus_xml fs file_path = Raise e.
Proof.
  intros Hfs Hhost Hitem Hbad.
  destruct (report_hosts_inhabited root report_host Hhost) as (report & Hrep & Hhosts).
  unfold parse_nessus_xml. rewrite Hfs.
  rewrite (find_plain root "Report" eq_refl), !bind_unit, Hrep.
  rewrite (findall_plain report "ReportHost" eq_refl), !bind_unit.
  rewrite <- Hhosts.
  apply (for_each_raises (host_body file_path) (fun _ => True)
           (report_hosts root) report_host); auto.
  intros [[hosts vulns] comps] _.
  unfold host_body. rewrite host_props_of_eq.
  rewrite (findall_plain report_host "ReportItem" eq_refl), !bind_unit.
  fold (report_items report_host).
  destruct (for_each_raises
              (item_body file_path
                 (props_get (collect_props (host_tags report_host)) "host-ip")
                 (props_get (collect_props (host_tags report_host)) "host-fqdn"))
              (fun st : ItemState => counts_dom (fst (fst st)))
              (report_items report_host) item) with (s0 := (init_counts, vulns, comps))
    as [e He].
  - intros [[c v] k] y [[c' v'] k'] Hc Hstep. simpl in *.
    apply item_body_Ok in Hstep. now apply Hstep.
  - intros [[c v] k] Hc. now apply Hbad.
  - exact Hitem.
  - exact init_counts_dom.
  - exists e. now rewrite He.
Qed.

Lemma main_parse_raises fs writable args_file args_output
    timestamp scan_date e :
  parse_nessus_xml fs args_file = Raise e ->
  outcome (main fs writable args_file args_output timestamp scan_date)
  = Raise e /\
  files (main fs writable args_file args_output timestamp scan_date) = [].
Proof. unfold main. now intros ->. Qed.

(** ** Properties of the extractor *)

(** An item that is not a compliance item and whose severity is an integer
    outside 0..4 makes the extractor raise: the count update reads a key the
    counts dictionary does not have. *)
Lemma unknown_severity_aborts fs file_path root report_host item z :
  fs file_path = Document root ->
  In report_host (report_hosts root) ->
  In item (report_items report_host) ->
  is_compliance item = false ->
  py_int (attrib item !! "severity") = Ok z ->
  ~ 0 <= z <= 4 ->
  exists e, parse_nessus_xml fs file_path = Raise e.
Proof.
  intros Hfs Hh Hi Hnc Hsev Hz.
  apply (item_failure_aborts fs file_path root report_host item); auto.
  intros ip fqdn c v k Hdom. unfold item_body.
  rewrite Hsev, bind_unit, Hnc.
  unfold counts_incr, counts_item.
  destruct (c !! z) as [n|] eqn:Hn.
  - exfalso. apply Hz, Hdom. eauto.
  - simpl. eauto.
Qed.

(** A compliance item makes the extractor raise, if nothing before it did:
    its dictionary cannot be built. *)
Lemma compliance_item_aborts fs file_path root report_host item :
  fs file_path = Document root ->
  In report_host (report_hosts root) ->
  In item (report_items report_host) ->
  is_compliance item = true ->
  exists e, parse_nessus_xml fs file_path = Raise e.
Proof.
  intros Hfs Hh Hi Hc.
  apply (item_failure_aborts fs file_path root report_host item); auto.
  intros ip fqdn c v k _. unfold item_body.
  destruct (py_int (attrib item !! "severity")) as [z|e]; [|simpl; eauto].
  rewrite bind_unit, Hc, compliance_dict_raises. simpl. eauto.
Qed.

Lemma host_compliance_nil file_path report_host :
  host_compliance file_path report_host = [].
Proof.
  unfold host_compliance, compliance_of, item_record.
  induction (report_items report_host) as [|item items IH]; [reflexivity|].
  simpl. destruct (is_compliance item); [|exact IH].
  destruct (py_int (attrib item !! "severity")); exact IH.
Qed.

(** So the compliance list of a normal return is empty. *)
Lemma parse_Ok_no_compliance fs file_path hosts vulns comps :
  parse_nessus_xml fs file_path = Ok (hosts, vulns, comps) -> comps = [].
Proof.
  intros H. destruct (parse_Ok _ _ _ _ _ H) as (root & _ & _ & _ & _ & ->).
  clear H.
  induction (report_hosts root) as [|h l IH]; [reflexivity|].
  change (host_compliance file_path h
          ++ concat (host_compliance file_path <$> l) = []).
  rewrite host_compliance_nil. exact IH.
Qed.

(** C1 (fails on the code): one finding item with severity 5 in the family
    General, which parses as an integer and is not a compliance item.  The
    extractor raises [KeyError(5)] at the count update, before the record
    with the label Unknown is built; the run ends there and writes nothing. *)
Theorem unknown_severity_raises_KeyError :
  py_int (attrib (sample_item "5" "General") !! "severity") = Ok 5 /\
  is_compliance (sample_item "5" "General") = false /\
  severity_label 5 = "Unknown" /\
  parse_nessus_xml (one_file doc_unknown_severity) "scan.nessus"
  = Raise (KeyError (VInt 5)) /\
  main (one_file doc_unknown_severity) always_writable "scan.nessus" None
       "20240101000000" "2024-01-01 00:00:00"
  = mkRun ["Parsing scan.nessus..."] [] (Raise (KeyError (VInt 5))).
Proof. repeat split; vm_compute; reflexivity. Qed.

(** C2: a document with a finding item whose severity attribute is present
    but is not an integer makes the extractor raise; the run ends with that
    exception before [write_excel] is reached, and no file is written. *)
Theorem unparseable_severity_aborts fs writable args_file args_output
    timestamp scan_date root report_host item s :
  fs args_file = Document root ->
  In report_host (report_hosts root) ->
  In item (report_items report_host) ->
  attrib item !! "severity" = Some s ->
  int_of_string s = None ->
  exists e,
    parse_nessus_xml fs args_file = Raise e /\
    outcome (main fs writable args_file args_output timestamp scan_date)
    = Raise e /\
    files (main fs writable args_file args_output timestamp scan_date) = [].
Proof.
  intros Hfs Hh Hi Hsev Hint.
  destruct (item_failure_aborts fs args_file root report_host item Hfs Hh Hi)
    as [e He].
  - intros ip fqdn c v k _. unfold item_body, py_int.
    rewrite Hsev, Hint. simpl. eauto.
  - exists e. split; [exact He|]. now apply main_parse_raises.
Qed.

Lemma unparseable_severity_aborts_witness :
  exists e,
    parse_nessus_xml (one_file doc_bad_severity) "scan.nessus" = Raise e /\
    outcome (main (one_file doc_bad_severity) always_writable "scan.nessus" None
                  "20240101000000" "2024-01-01 00:00:00") = Raise e /\
    files (main (one_file doc_bad_severity) always_writable "scan.nessus" None
                "20240101000000" "2024-01-01 00:00:00") = [].
Proof.
  apply (unparseable_severity_aborts (one_file doc_bad_severity)
           always_writable "scan.nessus"
           None "20240101000000" "2024-01-01 00:00:00" doc_bad_severity
           (sample_host [sample_item "abc" "General"])
           (sample_item "abc" "General") "abc").
  - reflexivity.
  - vm_compute. left. reflexivity.
  - vm_compute. left. reflexivity.
  - reflexivity.
  - reflexivity.
Defined.

(** C3 (fails on the code): one finding item of the family Policy
    Compliance.  Building its ComplianceRecord raises [SyntaxError] at the
    first [findtext] with the prefix [cm], so the item reaches neither
    collection and the run ends there. *)
Theorem compliance_item_raises_SyntaxError :
  is_compliance (sample_item "0" "Policy Compliance") = true /\
  parse_nessus_xml (one_file doc_compliance_item) "scan.nessus"
  = Raise (SyntaxError "prefix 'cm' not found in prefix map") /\
  main (one_file doc_compliance_item) always_writable "scan.nessus" None
       "20240101000000" "2024-01-01 00:00:00"
  = mkRun ["Parsing scan.nessus..."] []
          (Raise (SyntaxError "prefix 'cm' not found in prefix map")).
Proof. repeat split; vm_compute; reflexivity. Qed.

(** C4: in every HostRecord the extractor returns, the five severity counts
    sum to the Total field, and Total is the number of FindingRecords of
    that host, which is the number of its items that are not compliance
    items. *)
Theorem host_counts_sum_to_total fs file_path root hosts vulns comps :
  fs file_path = Document root ->
  parse_nessus_xml fs file_path = Ok (hosts, vulns, comps) ->
  Forall2
    (fun report_host d =>
       exists critical high medium low info total,
         int_field "Critical" d = Some critical /\
         int_field "High" d = Some high /\
         int_field "Medium" d = Some medium /\
         int_field "Low" d = Some low /\
         int_field "Info" d = Some info /\
         int_field "Total" d = Some total /\
         critical + high + medium + low + info = total /\
         total = Z.of_nat (length (host_findings file_path report_host)) /\
         total = Z.of_nat (length (List.filter
                                     (fun item => negb (is_compliance item))
                                     (report_items report_host))))
    (report_hosts root) hosts.
Proof.
  intros Hfs Hrun.
  pose proof (parse_routed fs file_path root _ Hfs Hrun) as Hrouted.
  destruct (parse_Ok _ _ _ _ _ Hrun) as (root' & Hfs' & _ & Hrec & _ & _).
  assert (root' = root) as -> by congruence.
  clear Hrun Hfs Hfs'.
  induction Hrec as [|h d hs ds Hd Hrest IH]; [constructor|].
  inversion Hrouted as [|? ? [Hf _] Hrouted']; subst.
  constructor; [|auto].
  destruct Hd as (c4 & c3 & c2 & c1 & c0 & -> & Hsum).
  exists c4, c3, c2, c1, c0, (c4 + c3 + c2 + c1 + c0).
  repeat (split; [reflexivity|]).
  split; [exact Hsum|]. now rewrite <- Hf.
Qed.

Lemma host_counts_sum_to_total_witness :
  Forall2
    (fun report_host d =>
       exists critical high medium low info total,
         int_field "Critical" d = Some critical /\
         int_field "High" d = Some high /\
         int_field "Medium" d = Some medium /\
         int_field "Low" d = Some low /\
         int_field "Info" d = Some info /\
         int_field "Total" d = Some total /\
         critical + high + medium + low + info = total /\
         total = Z.of_nat (length (host_findings "scan.nessus" report_host)) /\
         total = Z.of_nat (length (List.filter
                                     (fun item => negb (is_compliance item))
                                     (report_items report_host))))
    (report_hosts doc_two_findings) two_findings_hosts.
Proof.
  apply (host_counts_sum_to_total (one_file doc_two_findings) "scan.nessus"
           doc_two_findings two_findings_hosts two_findings_vulns
           two_findings_comps).
  - reflexivity.
  - vm_compute. reflexivity.
Defined.

(** C8: in every HostRecord the extractor returns, an identity field (IP,
    FQDN, operating system) that no [tag] of the host's property sub-tree
    names is the string N/A, not [None]; a host element with no property
    sub-tree has all three fields N/A. *)
Theorem absent_fields_are_NA fs file_path root hosts vulns comps :
  fs file_path = Document root ->
  parse_nessus_xml fs file_path = Ok (hosts, vulns, comps) ->
  Forall2
    (fun report_host d =>
       (field_absent report_host "host-ip" ->
        dict_get "IP Address" d = Some (VStr "N/A")) /\
       (field_absent report_host "host-fqdn" ->
        dict_get "FQDN" d = Some (VStr "N/A")) /\
       (field_absent report_host "operating-system" ->
        dict_get "Operating System" d = Some (VStr "N/A")) /\
       (head (child_elems "HostProperties" report_host) = None ->
        dict_get "IP Address" d = Some (VStr "N/A") /\
        dict_get "FQDN" d = Some (VStr "N/A") /\
        dict_get "Operating System" d = Some (VStr "N/A")))
    (report_hosts root) hosts.
Proof.
  intros Hfs Hrun.
  destruct (parse_Ok _ _ _ _ _ Hrun) as (root' & Hfs' & _ & Hrec & _ & _).
  assert (root' = root) as -> by congruence.
  eapply Forall2_impl; [exact Hrec|].
  intros h d (c4 & c3 & c2 & c1 & c0 & -> & _).
  assert (G : forall key, field_absent h key ->
                          of_opt (host_field h key) = VStr "N/A").
  { intros key Hk. now rewrite (host_field_absent h key Hk). }
  split; [|split; [|split]].
  - intros Ha. cbn. now rewrite (G _ Ha).
  - intros Ha. cbn. now rewrite (G _ Ha).
  - intros Ha. cbn. now rewrite (G _ Ha).
  - intros Hnone.
    pose proof (fun key => G key (no_properties_absent h key Hnone)) as G'.
    cbn. now rewrite !G'.
Qed.

Lemma absent_fields_are_NA_witness :
  Forall2
    (fun report_host d =>
       (field_absent report_host "host-ip" ->
        dict_get "IP Address" d = Some (VStr "N/A")) /\
       (field_absent report_host "host-fqdn" ->
        dict_get "FQDN" d = Some (VStr "N/A")) /\
       (field_absent report_host "operating-system" ->
        dict_get "Operating System" d = Some (VStr "N/A")) /\
       (head (child_elems "HostProperties" report_host) = None ->
        dict_get "IP Address" d = Some (VStr "N/A") /\
        dict_get "FQDN" d = Some (VStr "N/A") /\
        dict_get "Operating System" d = Some (VStr "N/A")))
    (report_hosts doc_bare_host) (fst (fst bare_host_parsed)).
Proof.
  apply (absent_fields_are_NA (one_file doc_bare_host) "scan.nessus"
           doc_bare_host (fst (fst bare_host_parsed))
           (snd (fst bare_host_parsed)) (snd bare_host_parsed)).
  - reflexivity.
  - vm_compute. reflexivity.
Defined.

(** ** Properties of the report composer *)

Lemma ws_write_mk name cells charts color cols row col v :
  ws_write (mkWorksheet name cells charts color cols) row col v
  = mkWorksheet name (cells ++ [(row, col, v)]) charts color cols.
Proof. reflexivity. Qed.

Lemma insert_chart_mk name cells charts color cols cell c :
  insert_chart (mkWorksheet name cells charts color cols) cell c
  = mkWorksheet name cells (charts ++ [(cell, c)]) color cols.
Proof. reflexivity. Qed.

Lemma summary_body_Ok severity_counts worksheet row sev st' :
  summary_body severity_counts (worksheet, row) sev = Ok st' ->
  exists n,
    st' = (ws_write (ws_write worksheet row 0 (VStr sev)) row 1 (VInt n), S row).
Proof.
  unfold summary_body. intros H. inv_bind H. injection H as <-. eauto.
Qed.

(** What a normal return of [create_dashboard_chart] did to the sheet: two
    header cells, ten summary cells, one chart. *)
Lemma create_dashboard_chart_Ok worksheet hosts_data vulnerabilities worksheet' :
  create_dashboard_chart worksheet hosts_data vulnerabilities = Ok worksheet' ->
  exists n4 n3 n2 n1 n0 : Z,
    worksheet'
    = mkWorksheet (ws_name worksheet)
        (ws_cells worksheet
         ++ [(19%nat, 0%nat, VStr "Severity"); (19%nat, 1%nat, VStr "Count")]
         ++ [(20%nat, 0%nat, VStr "Critical"); (20%nat, 1%nat, VInt n4);
             (21%nat, 0%nat, VStr "High"); (21%nat, 1%nat, VInt n3);
             (22%nat, 0%nat, VStr "Medium"); (22%nat, 1%nat, VInt n2);
             (23%nat, 0%nat, VStr "Low"); (23%nat, 1%nat, VInt n1);
             (24%nat, 0%nat, VStr "Info"); (24%nat, 1%nat, VInt n0)])
        (ws_charts worksheet ++ [("D2", dashboard_chart)])
        (ws_tab_color worksheet) (ws_columns worksheet).
Proof.
  intros H. unfold create_dashboard_chart in H.
  inv_bind H.
  change (ws_write_a1 worksheet "A20" (VStr "Severity"))
    with (Ok (ws_write worksheet 19 0 (VStr "Severity"))) in H.
  rewrite bind_unit in H.
  change (ws_write_a1 (ws_write worksheet 19 0 (VStr "Severity")) "B20"
                      (VStr "Count"))
    with (Ok (ws_write (ws_write worksheet 19 0 (VStr "Severity")) 19 1
                       (VStr "Count"))) in H.
  rewrite bind_unit in H.
  inv_bind H. destruct a0 as [w r]. injection H as <-.
  unfold severity_names in Ha0. cbn [for_each] in Ha0.
  inv_bind Ha0. apply summary_body_Ok in Ha1. destruct Ha1 as [n4 ->].
  inv_bind Ha0. apply summary_body_Ok in Ha1. destruct Ha1 as [n3 ->].
  inv_bind Ha0. apply summary_body_Ok in Ha1. destruct Ha1 as [n2 ->].
  inv_bind Ha0. apply summary_body_Ok in Ha1. destruct Ha1 as [n1 ->].
  inv_bind Ha0. apply summary_body_Ok in Ha1. destruct Ha1 as [n0 ->].
  injection Ha0 as <- <-.
  exists n4, n3, n2, n1, n0.
  destruct worksheet as [name cells charts color cols].
  rewrite !ws_write_mk, insert_chart_mk.
  cbn [ws_name ws_cells ws_charts ws_tab_color ws_columns].
  f_equal. rewrite <- !app_assoc. reflexivity.
Qed.

(** C5: the chart's categories reference names the five cells in which the
    composer wrote the severity labels, its values reference the five cells
    in which it wrote the counts, both on the sheet the writes went to; the
    summary loop writes nothing else. *)
Theorem chart_ranges_are_summary_cells worksheet hosts_data vulnerabilities
    worksheet' :
  ws_name worksheet = "Home" ->
  create_dashboard_chart worksheet hosts_data vulnerabilities = Ok worksheet' ->
  exists (cats vals : list (nat * nat)) (counts : list Z),
    ws_charts worksheet' = ws_charts worksheet ++ [("D2", dashboard_chart)] /\
    range_cells (categories dashboard_chart) = Some (ws_name worksheet', cats) /\
    range_cells (values dashboard_chart) = Some (ws_name worksheet', vals) /\
    length cats = 5%nat /\ length vals = 5%nat /\ length counts = 5%nat /\
    ws_cells worksheet'
    = ws_cells worksheet
      ++ [(19%nat, 0%nat, VStr "Severity"); (19%nat, 1%nat, VStr "Count")]
      ++ paired_writes cats vals ["Critical"; "High"; "Medium"; "Low"; "Info"]
                       counts.
Proof.
  intros Hname H.
  destruct (create_dashboard_chart_Ok _ _ _ _ H)
    as (n4 & n3 & n2 & n1 & n0 & ->).
  exists [(20, 0); (21, 0); (22, 0); (23, 0); (24, 0)]%nat,
         [(20, 1); (21, 1); (22, 1); (23, 1); (24, 1)]%nat,
         [n4; n3; n2; n1; n0].
  cbn [ws_name ws_cells ws_charts]. rewrite Hname.
  split; [reflexivity|].
  split; [vm_compute; reflexivity|]. split; [vm_compute; reflexivity|].
  repeat (split; [reflexivity|]). reflexivity.
Qed.

Lemma chart_ranges_are_summary_cells_witness :
  exists (cats vals : list (nat * nat)) (counts : list Z),
    ws_charts two_findings_home
    = ws_charts two_findings_home_before ++ [("D2", dashboard_chart)] /\
    range_cells (categories dashboard_chart)
    = Some (ws_name two_findings_home, cats) /\
    range_cells (values dashboard_chart)
    = Some (ws_name two_findings_home, vals) /\
    length cats = 5%nat /\ length vals = 5%nat /\ length counts = 5%nat /\
    ws_cells two_findings_home
    = ws_cells two_findings_home_before
      ++ [(19%nat, 0%nat, VStr "Severity"); (19%nat, 1%nat, VStr "Count")]
      ++ paired_writes cats vals ["Critical"; "High"; "Medium"; "Low"; "Info"]
                       counts.
Proof.
  apply (chart_ranges_are_summary_cells two_findings_home_before
           two_findings_hosts two_findings_vulns two_findings_home).
  - reflexivity.
  - vm_compute. reflexivity.
Defined.

(** *** Rows of a frame written to a sheet *)

Lemma row_cells_eq (ws : Worksheet) (row : nat) :
  row_cells ws row = omap (in_row row) (ws_cells ws).
Proof. reflexivity. Qed.

Lemma in_row_writes_at (row : nat) (vals : list Value) (g : nat -> nat) :
  omap (in_row row) (imap (fun col v => (row, g col, v)) vals)
  = imap (fun col v => (g col, v)) vals.
Proof.
  revert g. induction vals as [|v vals IH]; intros g; [reflexivity|].
  rewrite !imap_cons. cbn [omap list_omap].
  unfold in_row at 1. cbn [fst snd]. rewrite bool_decide_eq_true_2 by reflexivity.
  f_equal. exact (IH (g ∘ S)).
Qed.

Lemma in_row_writes_other (row row' : nat) (vals : list Value) :
  row' ≠ row -> omap (in_row row) (row_writes row' vals) = [].
Proof.
  intros Hne. unfold row_writes.
  assert (G : forall g : nat -> nat,
    omap (in_row row) (imap (fun col v => (row', g col, v)) vals) = []).
  { induction vals as [|v vals IH]; intros g; [reflexivity|].
    rewrite imap_cons. cbn [omap list_omap].
    unfold in_row at 1. cbn [fst snd].
    rewrite bool_decide_eq_false_2 by exact Hne.
    exact (IH (g ∘ S)). }
  exact (G (fun col => col)).
Qed.

Lemma in_row_records (row : nat) (f : PyDict -> list Value)
    (recs : list PyDict) (k : nat) :
  omap (in_row row)
       (concat (imap (fun i d => row_writes (k + i) (f d)) recs))
  = if decide (k <= row)%nat
    then match recs !! (row - k)%nat with
         | Some d => imap (fun col v => (col, v)) (f d)
         | None => []
         end
    else [].
Proof.
  revert k. induction recs as [|d recs IH]; intros k.
  - cbn. destruct (decide (k <= row)%nat); [|reflexivity].
    now rewrite lookup_nil.
  - rewrite imap_cons. cbn [concat]. rewrite omap_app.
    rewrite (imap_ext _ (fun i d => row_writes (S k + i) (f d)))
      by (intros i x _; cbn; f_equal; lia).
    rewrite (IH (S k)).
    destruct (decide (k + 0 = row)%nat) as [Heq|Hne].
    + rewrite Heq. unfold row_writes at 1.
      rewrite (in_row_writes_at row (f d) (fun col => col)).
      destruct (decide (k <= row)%nat); [|lia].
      destruct (decide (S k <= row)%nat); [lia|].
      replace (row - k)%nat with 0%nat by lia. cbn. now rewrite app_nil_r.
    + rewrite (in_row_writes_other row (k + 0) (f d) Hne). cbn [app].
      destruct (decide (S k <= row)%nat), (decide (k <= row)%nat);
        try lia; [|reflexivity].
      replace (row - k)%nat with (S (row - S k)) by lia. reflexivity.
Qed.

(** The header row of a written frame holds the column labels in order. *)
Lemma row_cells_to_excel_header (df : DataFrame) (name : string) :
  row_cells (excel_sheet df name 0) 0
  = imap (fun col label => (col, VStr label)) (columns df).
Proof.
  rewrite row_cells_eq. unfold excel_sheet. cbn [ws_cells]. rewrite omap_app.
  rewrite (in_row_records 0 (fun d => cell_of d <$> columns df) (records df) 1).
  destruct (decide (1 <= 0)%nat); [lia|]. rewrite app_nil_r.
  unfold row_writes. rewrite (in_row_writes_at 0 _ (fun col => col)).
  now rewrite imap_fmap.
Qed.

(** Row [r + 1] holds record [r], its cells in the order of the columns. *)
Lemma row_cells_to_excel_record (df : DataFrame) (name : string) (r : nat) :
  row_cells (excel_sheet df name 0) (S r)
  = match records df !! r with
    | Some d => imap (fun col label => (col, cell_of d label)) (columns df)
    | None => []
    end.
Proof.
  rewrite row_cells_eq. unfold excel_sheet. cbn [ws_cells]. rewrite omap_app.
  rewrite (in_row_writes_other (S r) 0) by lia. cbn [app].
  rewrite (in_row_records (S r) (fun d => cell_of d <$> columns df)
                          (records df) 1).
  destruct (decide (1 <= S r)%nat); [|lia].
  replace (S r - 1)%nat with r by lia.
  destruct (records df !! r); [|reflexivity]. now rewrite imap_fmap.
Qed.

(** *** The sheets of the workbook *)

Lemma df_select_Ok (df df' : DataFrame) (cols : list string) :
  df_select df cols = Ok df' -> df' = mkDataFrame cols (records df).
Proof.
  unfold df_select.
  destruct (List.find _ cols); [discriminate|]. now intros [= <-].
Qed.

Lemma to_excel_Ok df sheet_name startrow ws :
  to_excel df sheet_name startrow = Ok ws ->
  ws = excel_sheet df sheet_name startrow.
Proof.
  unfold to_excel. destruct (_ && _); [now intros [= <-]|discriminate].
Qed.

(** A frame within the limits of a worksheet is written. *)
Lemma to_excel_fits df sheet_name startrow :
  Z.of_nat (length (records df)) <= max_rows ->
  Z.of_nat (length (columns df)) <= max_cols ->
  to_excel df sheet_name startrow = Ok (excel_sheet df sheet_name startrow).
Proof.
  intros Hr Hc. unfold to_excel.
  apply Z.leb_le in Hr. apply Z.leb_le in Hc. now rewrite Hr, Hc.
Qed.

Lemma severity_sheet_body_Ok vulns sheets severity_val sheets' :
  severity_sheet_body (pd_DataFrame vulns) sheets severity_val = Ok sheets' ->
  sheets' = sheets ++ option_list (severity_sheet vulns severity_val).
Proof.
  unfold severity_sheet_body, severity_map_item, severity_sheet, df_where_eq,
    pd_DataFrame.
  cbn [columns records].
  destruct (SEVERITY_MAP !! severity_val) as [label|]; [|discriminate].
  rewrite bind_unit. cbn [mbind option_bind].
  case_bool_decide as Hcol; [|discriminate].
  rewrite bind_unit. unfold df_empty. cbn [columns records].
  fold (with_severity severity_val vulns).
  destruct (foldl add_keys [] vulns) as [|col cols] eqn:Hcols;
    [now apply elem_of_nil in Hcol|].
  destruct (with_severity severity_val vulns) as [|d recs].
  - cbn. intros [= <-]. now rewrite app_nil_r.
  - cbn [negb]. intros H. inv_bind H. apply df_select_Ok in Ha. subst a.
    inv_bind H. apply to_excel_Ok in Ha. subst a.
    cbn [records] in H. unfold colors_item in H.
    destruct (COLORS !! label) as [color|]; [|discriminate].
    rewrite bind_unit in H. now injection H as <-.
Qed.

Lemma severity_sheets_Ok vulns zs sheets sheets' :
  for_each (severity_sheet_body (pd_DataFrame vulns)) zs sheets = Ok sheets' ->
  sheets' = sheets ++ omap (severity_sheet vulns) zs.
Proof.
  revert sheets. induction zs as [|z zs IH]; intros sheets H.
  - cbn in H. injection H as <-. now rewrite app_nil_r.
  - cbn [for_each] in H. inv_bind H.
    apply severity_sheet_body_Ok in Ha. apply IH in H. subst a sheets'.
    rewrite <- app_assoc. f_equal.
    cbn [omap list_omap]. now destruct (severity_sheet vulns z).
Qed.

Lemma severity_sheet_none (z : Z) : severity_sheet [] z = None.
Proof. unfold severity_sheet. now destruct (SEVERITY_MAP !! z). Qed.

(** A normal return of [write_excel]: the Home sheet, then the Host Summary
    sheet if there is a host, the sheets of the severities that have
    findings, from Critical down, and the Compliance sheet if there is a
    compliance item. *)
Lemma write_excel_Ok writable output_file hosts vulns comps
    scan_date sheets :
  write_excel writable hosts vulns comps output_file scan_date = Ok sheets ->
  exists home,
    create_dashboard_chart (home_sheet hosts vulns comps scan_date) hosts vulns
    = Ok home /\
    sheets
    = [home]
      ++ match hosts with [] => [] | _ :: _ => [host_summary_sheet hosts] end
      ++ omap (severity_sheet vulns) [4; 3; 2; 1; 0]
      ++ match comps with [] => [] | _ :: _ => [compliance_sheet comps] end.
Proof.
  unfold write_excel. intros H. inv_bind H. clear Ha a.
  inv_bind H. apply to_excel_Ok in Ha. subst a.
  fold (home_sheet hosts vulns comps scan_date) in H.
  inv_bind H. rename a into home. exists home.
  split; [assumption|].
  inv_bind H. rename a into sheets1.
  assert (Hs1 : sheets1 = [home] ++ match hosts with
                                    | [] => []
                                    | _ :: _ => [host_summary_sheet hosts]
                                    end).
  { destruct hosts as [|h hosts'].
    - now injection Ha0 as <-.
    - inv_bind Ha0. apply df_select_Ok in Ha1. subst a.
      inv_bind Ha0. apply to_excel_Ok in Ha1. subst a.
      now injection Ha0 as <-. }
  inv_bind H. rename a into sheets2.
  assert (Hs2 : sheets2 = sheets1 ++ omap (severity_sheet vulns) [4; 3; 2; 1; 0]).
  { destruct vulns as [|v vulns'].
    - injection Ha1 as <-. cbn [omap list_omap].
      rewrite !severity_sheet_none. now rewrite app_nil_r.
    - now apply severity_sheets_Ok in Ha1. }
  subst sheets1 sheets2.
  destruct comps as [|c comps'].
  - apply Ok_inj in H. rewrite <- H. now rewrite app_nil_r, <- !app_assoc.
  - inv_bind H. apply to_excel_Ok in Ha2. subst a.
    apply Ok_inj in H. rewrite <- H. now rewrite <- !app_assoc.
Qed.

Lemma severity_map_cases (z : Z) (label : string) :
  SEVERITY_MAP !! z = Some label ->
  (z = 4 /\ label = "Critical") \/ (z = 3 /\ label = "High") \/
  (z = 2 /\ label = "Medium") \/ (z = 1 /\ label = "Low") \/
  (z = 0 /\ label = "Info").
Proof.
  unfold SEVERITY_MAP. intros H.
  repeat (rewrite lookup_insert in H; case_decide;
          [injection H as <-; subst z; tauto|]).
  now rewrite lookup_empty in H.
Qed.

Lemma with_severity_none (z : Z) (vulns : list PyDict) :
  Forall (fun d => dict_get "Severity" d ≠ Some (VInt z)) vulns ->
  with_severity z vulns = [].
Proof.
  unfold with_severity. induction 1 as [|d vulns Hd _ IH]; [reflexivity|].
  cbn [List.filter]. rewrite bool_decide_eq_false_2; [exact IH|].
  unfold cell_of. intros Heq. apply Hd.
  destruct (dict_get "Severity" d) as [v|]; [cbn in Heq; congruence|discriminate].
Qed.

(** A severity sheet is named by its label, exists only when some finding
    has the severity, and holds the frame of those findings restricted to
    the displayed columns. *)
Lemma severity_sheet_Some vulns z ws :
  severity_sheet vulns z = Some ws ->
  SEVERITY_MAP !! z = Some (ws_name ws) /\
  with_severity z vulns ≠ [] /\
  ws_cells ws
  = ws_cells (excel_sheet (mkDataFrame disp_cols (with_severity z vulns))
                       (ws_name ws) 0).
Proof.
  unfold severity_sheet.
  destruct (SEVERITY_MAP !! z) as [label|]; [|discriminate].
  cbn [mbind option_bind].
  destruct (with_severity z vulns) as [|d recs]; [discriminate|].
  destruct (COLORS !! label) as [color|]; [|discriminate].
  cbn [mbind option_bind]. intros [= <-]. now repeat split.
Qed.

Lemma home_name hosts vulns comps scan_date home :
  create_dashboard_chart (home_sheet hosts vulns comps scan_date) hosts vulns
  = Ok home ->
  ws_name home = "Home".
Proof.
  intros H. destruct (create_dashboard_chart_Ok _ _ _ _ H)
    as (n4 & n3 & n2 & n1 & n0 & ->). reflexivity.
Qed.

(** Which sheet of the workbook a sheet is. *)
Lemma write_excel_sheet writable output_file hosts vulns comps
    scan_date sheets ws :
  write_excel writable hosts vulns comps output_file scan_date = Ok sheets ->
  In ws sheets ->
  ws_name ws = "Home" \/
  (hosts ≠ [] /\ ws = host_summary_sheet hosts) \/
  (exists z, severity_sheet vulns z = Some ws) \/
  (comps ≠ [] /\ ws = compliance_sheet comps).
Proof.
  intros H Hin. destruct (write_excel_Ok _ _ _ _ _ _ _ H) as (home & Hhome & ->).
  apply in_app_or in Hin. destruct Hin as [[<-|[]]|Hin].
  { left. exact (home_name _ _ _ _ _ Hhome). }
  apply in_app_or in Hin. destruct Hin as [Hin|Hin].
  { right. left. destruct hosts; [destruct Hin|].
    destruct Hin as [<-|[]]. now split. }
  apply in_app_or in Hin. destruct Hin as [Hin|Hin].
  { right. right. left. apply list_elem_of_In, list_elem_of_omap in Hin.
    destruct Hin as (z & _ & Hz). eauto. }
  right. right. right. destruct comps; [destruct Hin|].
  destruct Hin as [<-|[]]. now split.
Qed.

(** C6: in the workbook [write_excel] builds, a severity no FindingRecord has
    gets no sheet, and with no ComplianceRecord there is no Compliance
    sheet. *)
Theorem empty_sheets_are_omitted writable output_file hosts vulns comps
    scan_date sheets :
  write_excel writable hosts vulns comps output_file scan_date = Ok sheets ->
  (forall severity_val label,
     SEVERITY_MAP !! severity_val = Some label ->
     Forall (fun d => dict_get "Severity" d ≠ Some (VInt severity_val)) vulns ->
     Forall (fun ws => ws_name ws ≠ label) sheets) /\
  (comps = [] -> Forall (fun ws => ws_name ws ≠ "Compliance") sheets).
Proof.
  intros H. split.
  - intros z label Hlabel Hnone. apply List.Forall_forall. intros ws Hin Hname.
    destruct (write_excel_sheet _ _ _ _ _ _ _ _ H Hin)
      as [Hhome|[(_ & ->)|[(z' & Hz')|(_ & ->)]]].
    + rewrite Hhome in Hname. subst label.
      apply severity_map_cases in Hlabel. intuition discriminate.
    + cbn in Hname. subst label.
      apply severity_map_cases in Hlabel. intuition discriminate.
    + destruct (severity_sheet_Some _ _ _ Hz') as (Hl' & Hne & _).
      rewrite Hname in Hl'.
      assert (z' = z) as ->.
      { apply severity_map_cases in Hlabel. apply severity_map_cases in Hl'.
        intuition (subst; congruence). }
      apply Hne. now apply with_severity_none.
    + cbn in Hname. subst label.
      apply severity_map_cases in Hlabel. intuition discriminate.
  - intros ->. apply List.Forall_forall. intros ws Hin Hname.
    destruct (write_excel_sheet _ _ _ _ _ _ _ _ H Hin)
      as [Hhome|[(_ & ->)|[(z' & Hz')|(Hne & _)]]].
    + rewrite Hhome in Hname. discriminate.
    + discriminate.
    + destruct (severity_sheet_Some _ _ _ Hz') as (Hl' & _ & _).
      rewrite Hname in Hl'. apply severity_map_cases in Hl'.
      intuition discriminate.
    + now apply Hne.
Qed.

Lemma empty_sheets_are_omitted_witness :
  Forall (fun ws => ws_name ws ≠ "High") two_findings_sheets /\
  Forall (fun ws => ws_name ws ≠ "Compliance") two_findings_sheets.
Proof.
  destruct (empty_sheets_are_omitted always_writable "report.xlsx"
              two_findings_hosts two_findings_vulns
              two_findings_comps "2024-01-01 00:00:00" two_findings_sheets)
    as [Hsev Hcomp].
  - vm_compute. reflexivity.
  - split.
    + apply (Hsev 3 "High"); [reflexivity|].
      repeat constructor; vm_compute; discriminate.
    + apply Hcomp. reflexivity.
Defined.

Lemma row_cells_same_cells (ws ws' : Worksheet) (row : nat) :
  ws_cells ws = ws_cells ws' -> row_cells ws row = row_cells ws' row.
Proof. unfold row_cells. now intros ->. Qed.

(** C7: in the workbook [write_excel] builds, the header of the Host Summary
    sheet is IP Address, FQDN, Operating System, Critical, High, Medium, Low,
    Info, Total in columns 0 to 8, and the header of every severity sheet is
    IP Address, FQDN, Port, Protocol, Service, Plugin ID, Plugin Name, CVSS
    Base Score, Description, Solution in columns 0 to 9; each row below a
    header holds one record, its cells under these labels in this order. *)
Theorem sheet_columns_fixed writable output_file hosts vulns comps
    scan_date sheets ws :
  write_excel writable hosts vulns comps output_file scan_date = Ok sheets ->
  In ws sheets ->
  (ws_name ws = "Host Summary" ->
   row_cells ws 0
   = [(0, VStr "IP Address"); (1, VStr "FQDN"); (2, VStr "Operating System");
      (3, VStr "Critical"); (4, VStr "High"); (5, VStr "Medium");
      (6, VStr "Low"); (7, VStr "Info"); (8, VStr "Total")]%nat /\
   forall r,
     row_cells ws (S r)
     = match hosts !! r with
       | Some d =>
           [(0, cell_of d "IP Address"); (1, cell_of d "FQDN");
            (2, cell_of d "Operating System"); (3, cell_of d "Critical");
            (4, cell_of d "High"); (5, cell_of d "Medium");
            (6, cell_of d "Low"); (7, cell_of d "Info");
            (8, cell_of d "Total")]%nat
       | None => []
       end) /\
  (In (ws_name ws) ["Critical"; "High"; "Medium"; "Low"; "Info"] ->
   row_cells ws 0
   = [(0, VStr "IP Address"); (1, VStr "FQDN"); (2, VStr "Port");
      (3, VStr "Protocol"); (4, VStr "Service"); (5, VStr "Plugin ID");
      (6, VStr "Plugin Name"); (7, VStr "CVSS Base Score");
      (8, VStr "Description"); (9, VStr "Solution")]%nat /\
   exists severity_val,
     SEVERITY_MAP !! severity_val = Some (ws_name ws) /\
     forall r,
       row_cells ws (S r)
       = match with_severity severity_val vulns !! r with
         | Some d =>
             [(0, cell_of d "IP Address"); (1, cell_of d "FQDN");
              (2, cell_of d "Port"); (3, cell_of d "Protocol");
              (4, cell_of d "Service"); (5, cell_of d "Plugin ID");
              (6, cell_of d "Plugin Name"); (7, cell_of d "CVSS Base Score");
              (8, cell_of d "Description"); (9, cell_of d "Solution")]%nat
         | None => []
         end).
Proof.
  intros H Hin.
  destruct (write_excel_sheet _ _ _ _ _ _ _ _ H Hin)
    as [Hhome|[(_ & ->)|[(z & Hz)|(_ & ->)]]].
  - rewrite Hhome. split; [discriminate|].
    cbn. intuition discriminate.
  - split; [|cbn; intuition discriminate].
    intros _. split.
    + rewrite (row_cells_same_cells _
                 (excel_sheet (mkDataFrame host_cols hosts) "Host Summary" 0))
        by reflexivity.
      now rewrite row_cells_to_excel_header.
    + intros r.
      rewrite (row_cells_same_cells _
                 (excel_sheet (mkDataFrame host_cols hosts) "Host Summary" 0))
        by reflexivity.
      rewrite row_cells_to_excel_record. cbn [records columns].
      now destruct (hosts !! r).
  - destruct (severity_sheet_Some _ _ _ Hz) as (Hlabel & _ & Hcells).
    split.
    + intros Hname. rewrite Hname in Hlabel.
      apply severity_map_cases in Hlabel. intuition discriminate.
    + intros _. split.
      * rewrite (row_cells_same_cells _ _ 0 Hcells).
        now rewrite row_cells_to_excel_header.
      * exists z. split; [assumption|]. intros r.
        rewrite (row_cells_same_cells _ _ (S r) Hcells).
        rewrite row_cells_to_excel_record. cbn [records columns].
        now destruct (with_severity z vulns !! r).
  - split; [discriminate|]. cbn. intuition discriminate.
Qed.

Lemma sheet_columns_fixed_witness :
  row_cells two_findings_host_summary 0
  = [(0, VStr "IP Address"); (1, VStr "FQDN"); (2, VStr "Operating System");
     (3, VStr "Critical"); (4, VStr "High"); (5, VStr "Medium");
     (6, VStr "Low"); (7, VStr "Info"); (8, VStr "Total")]%nat.
Proof.
  destruct (sheet_columns_fixed always_writable "report.xlsx"
              two_findings_hosts two_findings_vulns
              two_findings_comps "2024-01-01 00:00:00" two_findings_sheets
              two_findings_host_summary) as [Hhost _].
  - vm_compute. reflexivity.
  - vm_compute. right. left. reflexivity.
  - apply Hhost. reflexivity.
Defined.

Lemma parse_no_hosts fs file_path root :
  fs file_path = Document root ->
  is_Some (head (child_elems "Report" root)) ->
  report_hosts root = [] ->
  parse_nessus_xml fs file_path = Ok ([], [], []).
Proof.
  intros Hfs [report Hrep] Hnil. unfold parse_nessus_xml. rewrite Hfs.
  rewrite (find_plain root "Report" eq_refl), bind_unit, Hrep.
  rewrite (findall_plain report "ReportHost" eq_refl), bind_unit.
  now rewrite <- (report_hosts_of_report root report Hrep), Hnil.
Qed.

Lemma write_excel_nothing writable output_file scan_date :
  pd_ExcelWriter writable output_file = Ok () ->
  exists home,
    write_excel writable [] [] [] output_file scan_date = Ok [home] /\
    ws_name home = "Home" /\
    cell_at home (0, 1)%nat = Some (VStr "Total Hosts") /\
    cell_at home (1, 1)%nat = Some (VInt 0).
Proof.
  intros Hw. unfold write_excel. rewrite Hw, bind_unit.
  eexists. split; [vm_compute; reflexivity|].
  repeat split; vm_compute; reflexivity.
Qed.

(** C10: for a document whose report container has no host element, no run
    saves a workbook with a Host Summary sheet; and when the workbook can be
    opened under the output name, the run succeeds and saves a workbook whose
    only sheet is Home, which has the label Total Hosts in its header and 0
    below it. *)
Theorem no_hosts_no_host_summary fs writable args_file args_output
    timestamp scan_date root :
  fs args_file = Document root ->
  is_Some (head (child_elems "Report" root)) ->
  report_hosts root = [] ->
  (forall path sheets,
     In (path, sheets)
        (files (main fs writable args_file args_output timestamp scan_date)) ->
     ~ In "Host Summary" (ws_name <$> sheets)) /\
  (pd_ExcelWriter writable (output_name args_output timestamp) = Ok () ->
   exists home,
     outcome (main fs writable args_file args_output timestamp scan_date)
     = Ok () /\
     files (main fs writable args_file args_output timestamp scan_date)
     = [(output_name args_output timestamp, [home])] /\
     ~ In "Host Summary" (ws_name <$> [home]) /\
     ws_name home = "Home" /\
     cell_at home (0, 1)%nat = Some (VStr "Total Hosts") /\
     cell_at home (1, 1)%nat = Some (VInt 0)).
Proof.
  intros Hfs Hrep Hnil.
  pose proof (parse_no_hosts fs args_file root Hfs Hrep Hnil) as Hparse.
  unfold main. rewrite Hparse.
  destruct (pd_ExcelWriter writable (output_name args_output timestamp))
    as [[]|e] eqn:Hopen.
  - destruct (write_excel_nothing writable _ scan_date Hopen)
      as (home & Hw & Hname & Hh & Hv).
    rewrite Hw. cbn [outcome files].
    assert (Hno : ~ In "Host Summary" (ws_name <$> [home])).
    { cbn. rewrite Hname. intuition discriminate. }
    split.
    + intros path sheets [[= <- <-]|[]]. exact Hno.
    + intros _. exists home. auto 10.
  - unfold write_excel. rewrite Hopen. cbn [mbind PyResult_bind files].
    split; [intros path sheets []|discriminate].
Qed.

Lemma no_hosts_no_host_summary_witness :
  exists home,
    outcome (main (one_file doc_no_hosts) always_writable "scan.nessus" None
                  "20240101000000" "2024-01-01 00:00:00") = Ok () /\
    files (main (one_file doc_no_hosts) always_writable "scan.nessus" None
                "20240101000000" "2024-01-01 00:00:00")
    = [("nessus_report_20240101000000.xlsx", [home])] /\
    ~ In "Host Summary" (ws_name <$> [home]) /\
    ws_name home = "Home" /\
    cell_at home (0, 1)%nat = Some (VStr "Total Hosts") /\
    cell_at home (1, 1)%nat = Some (VInt 0).
Proof.
  apply (no_hosts_no_host_summary (one_file doc_no_hosts) always_writable
           "scan.nessus" None "20240101000000" "2024-01-01 00:00:00"
           doc_no_hosts).
  - reflexivity.
  - vm_compute. eauto.
  - reflexivity.
  - reflexivity.
Defined.

(** ** The composer succeeds on what the extractor returns *)

(** A loop ends normally when its body does on every element, from every
    state that has the invariant. *)
Lemma for_each_total {A S} (body : S -> A -> PyResult S) (P : S -> Prop)
    (Q : A -> Prop) (l : list A) (s0 : S) :
  (forall st x, P st -> Q x -> exists st', body st x = Ok st' /\ P st') ->
  Forall Q l -> P s0 ->
  exists s, for_each body l s0 = Ok s /\ P s.
Proof.
  intros Hstep Hl. revert s0.
  induction Hl as [|x l Hx _ IH]; intros s0 Hs0; [now exists s0|].
  destruct (Hstep s0 x Hs0 Hx) as (s1 & Hb & Hs1).
  destruct (IH s1 Hs1) as (s & Hrun & Hs).
  exists s. split; [|assumption]. cbn [for_each]. now rewrite Hb, bind_unit.
Qed.

Lemma item_body_findings_ok file_path ip fqdn c v k item c' v' k' :
  item_body file_path ip fqdn (c, v, k) item = Ok (c', v', k') ->
  counts_dom c -> Forall finding_ok v ->
  counts_dom c' /\ Forall finding_ok v'.
Proof.
  unfold item_body. simpl.
  intros H Hdom Hv. inv_bind H.
  destruct (is_compliance item); [discriminate|].
  inv_bind H. injection H as <- <- <-.
  destruct (counts_incr_Ok _ _ _ Ha0 Hdom) as (Hrange & Hdom' & _).
  split; [assumption|]. apply Forall_app. split; [assumption|].
  constructor; [|constructor].
  exists file_path, ip, fqdn, item, a. now split.
Qed.

Lemma item_loop_findings_ok file_path ip fqdn items c v k c' v' k' :
  for_each (item_body file_path ip fqdn) items (c, v, k) = Ok (c', v', k') ->
  counts_dom c -> Forall finding_ok v -> Forall finding_ok v'.
Proof.
  intros Hrun Hdom Hv.
  apply (for_each_invariant (item_body file_path ip fqdn)
    (fun _ (st : ItemState) =>
       counts_dom (fst (fst st)) /\ Forall finding_ok (snd (fst st)))
    items (c, v, k) (c', v', k')); [now split| |exact Hrun].
  intros done x [[c1 v1] k1] [[c2 v2] k2] (Hd & Hf) Hstep.
  exact (item_body_findings_ok _ _ _ _ _ _ _ _ _ _ Hstep Hd Hf).
Qed.

Lemma host_body_findings_ok file_path hosts vulns comps report_host
    hosts' vulns' comps' :
  host_body file_path (hosts, vulns, comps) report_host
  = Ok (hosts', vulns', comps') ->
  Forall finding_ok vulns -> Forall finding_ok vulns'.
Proof.
  unfold host_body. rewrite host_props_of_eq.
  rewrite (findall_plain report_host "ReportItem" eq_refl), !bind_unit.
  intros H Hv. inv_bind H. destruct a as [[c v] k].
  inv_bind H. injection H as _ <- _.
  exact (item_loop_findings_ok _ _ _ _ _ _ _ _ _ _ Ha init_counts_dom Hv).
Qed.

(** What the extractor returns is well formed for the composer. *)
Lemma parse_records_ok fs file_path hosts vulns comps :
  parse_nessus_xml fs file_path = Ok (hosts, vulns, comps) ->
  Forall host_ok hosts /\ Forall finding_ok vulns.
Proof.
  intros Hrun. split.
  - destruct (parse_Ok _ _ _ _ _ Hrun) as (root & _ & _ & Hrec & _ & _).
    clear Hrun.
    induction Hrec as [|h d hs ds Hd _ IH]; [constructor|].
    constructor; [|assumption]. now exists file_path, h.
  - revert Hrun. unfold parse_nessus_xml.
    destruct (fs file_path) as [|e|root]; try discriminate.
    rewrite (find_plain root "Report" eq_refl), bind_unit.
    destruct (head (child_elems "Report" root)) as [report|]; [|discriminate].
    rewrite (findall_plain report "ReportHost" eq_refl), bind_unit.
    intros Hrun.
    apply (for_each_invariant (host_body file_path)
      (fun _ (st : ParseState) => Forall finding_ok (snd (fst st)))
      (child_elems "ReportHost" report) ([], [], []) (hosts, vulns, comps));
      [constructor| |exact Hrun].
    intros done x [[h1 v1] k1] [[h2 v2] k2] Hf Hstep.
    exact (host_body_findings_ok _ _ _ _ _ _ _ _ Hstep Hf).
Qed.

Lemma finding_ok_shape (d : PyDict) :
  finding_ok d ->
  fst <$> d = vuln_cols /\
  exists z, 0 <= z <= 4 /\ dict_get "Severity" d = Some (VInt z).
Proof.
  intros (file_path & ip & fqdn & item & z & Hz & Hd).
  unfold vuln_dict in Hd.
  repeat match type of Hd with
  | context [findtext item ?n] =>
      let t := fresh "t" in
      let Ht := fresh "Ht" in
      destruct (findtext_plain item n eq_refl) as [t Ht];
      rewrite Ht, bind_unit in Hd
  end.
  apply Ok_inj in Hd. subst d. split; [reflexivity|]. now exists z.
Qed.

Lemma host_ok_shape (d : PyDict) : host_ok d -> fst <$> d = host_cols.
Proof.
  intros (file_path & h & c4 & c3 & c2 & c1 & c0 & -> & _). reflexivity.
Qed.

(** *** The columns of a frame of records with the same keys *)

Lemma add_keys_fresh (acc ks : list string) :
  NoDup (acc ++ ks) ->
  foldl (fun cols k => if bool_decide (k ∈ cols) then cols else cols ++ [k])
        acc ks
  = acc ++ ks.
Proof.
  revert acc. induction ks as [|k ks IH]; intros acc Hnd.
  - now rewrite app_nil_r.
  - cbn [foldl]. rewrite bool_decide_eq_false_2.
    + rewrite IH; rewrite <- app_assoc; [reflexivity|exact Hnd].
    + apply NoDup_app in Hnd. destruct Hnd as (_ & Hdisj & _).
      intros Hin. apply (Hdisj k Hin). now left.
Qed.

Lemma add_keys_known (acc ks : list string) :
  Forall (fun k => k ∈ acc) ks ->
  foldl (fun cols k => if bool_decide (k ∈ cols) then cols else cols ++ [k])
        acc ks
  = acc.
Proof.
  induction 1 as [|k ks Hk _ IH]; [reflexivity|].
  cbn [foldl]. now rewrite bool_decide_eq_true_2.
Qed.

Lemma pd_DataFrame_columns (K : list string) (d : PyDict) (recs : list PyDict) :
  NoDup K ->
  Forall (fun d => fst <$> d = K) (d :: recs) ->
  columns (pd_DataFrame (d :: recs)) = K.
Proof.
  intros Hnd Hall. inversion Hall as [|? ? Hd Hrecs]; subst.
  unfold pd_DataFrame. cbn [columns foldl].
  assert (E : add_keys [] d = fst <$> d).
  { unfold add_keys. now rewrite add_keys_fresh. }
  rewrite E. clear E Hall.
  induction Hrecs as [|d' recs' Hd' _ IH]; [reflexivity|].
  cbn [foldl]. unfold add_keys at 2. rewrite add_keys_known; [exact IH|].
  rewrite Hd'. apply Forall_forall. auto.
Qed.

Lemma NoDup_vuln_cols : NoDup vuln_cols.
Proof. apply (bool_decide_unpack _). vm_compute. exact I. Qed.

Lemma NoDup_host_cols : NoDup host_cols.
Proof. apply (bool_decide_unpack _). vm_compute. exact I. Qed.

Lemma df_select_known (df : DataFrame) (cols : list string) :
  Forall (fun c => c ∈ columns df) cols ->
  df_select df cols = Ok (mkDataFrame cols (records df)).
Proof.
  intros Hall. unfold df_select.
  destruct (List.find _ cols) as [c|] eqn:Hfind; [|reflexivity].
  apply List.find_some in Hfind. destruct Hfind as (Hin & Hneg).
  rewrite Forall_forall in Hall.
  apply list_elem_of_In, Hall in Hin.
  now rewrite bool_decide_eq_true_2 in Hneg.
Qed.

Lemma disp_cols_known : Forall (fun c => c ∈ vuln_cols) disp_cols.
Proof. apply (bool_decide_unpack _). vm_compute. exact I. Qed.

(** *** The dashboard *)

Lemma init_severity_counts_dom : label_dom init_severity_counts.
Proof. repeat constructor; vm_compute; eauto. Qed.

Lemma tally_body_total severity_counts v :
  label_dom severity_counts -> finding_ok v ->
  exists c', tally_body severity_counts v = Ok c' /\ label_dom c'.
Proof.
  intros Hdom Hv.
  destruct (finding_ok_shape v Hv) as (_ & z & Hz & Hsev).
  unfold tally_body, dict_item. rewrite Hsev, bind_unit.
  cbn [severity_map_get].
  assert (Hl : exists label, SEVERITY_MAP !! z = Some label /\
                             label ≠ "" /\ label ∈ severity_names).
  { assert (z = 0 \/ z = 1 \/ z = 2 \/ z = 3 \/ z = 4) as Hc by lia.
    destruct Hc as [->|[->|[->|[->| ->]]]]; eexists;
      (split; [vm_compute; reflexivity|]);
      (split; [discriminate|]); apply list_elem_of_In; vm_compute; tauto. }
  destruct Hl as (label & -> & Hne & Hin).
  rewrite bool_decide_eq_false_2 by exact Hne.
  unfold label_dom in Hdom. rewrite Forall_forall in Hdom.
  destruct (Hdom label Hin) as [n Hn].
  unfold label_counts_item. rewrite Hn, bind_unit.
  eexists. split; [reflexivity|].
  unfold label_dom. rewrite Forall_forall. intros l Hl.
  rewrite lookup_insert. case_decide; [eauto|]. now apply Hdom.
Qed.

Lemma create_dashboard_chart_total worksheet hosts_data vulnerabilities :
  Forall finding_ok vulnerabilities ->
  exists worksheet',
    create_dashboard_chart worksheet hosts_data vulnerabilities = Ok worksheet'.
Proof.
  intros Hv.
  destruct (for_each_total tally_body label_dom finding_ok vulnerabilities
              init_severity_counts) as (counts & Hrun & Hdom).
  - intros st x. apply tally_body_total.
  - exact Hv.
  - exact init_severity_counts_dom.
  - unfold create_dashboard_chart. rewrite Hrun, bind_unit.
    change (ws_write_a1 worksheet "A20" (VStr "Severity"))
      with (Ok (ws_write worksheet 19 0 (VStr "Severity"))).
    rewrite bind_unit.
    change (ws_write_a1 (ws_write worksheet 19 0 (VStr "Severity")) "B20"
                        (VStr "Count"))
      with (Ok (ws_write (ws_write worksheet 19 0 (VStr "Severity")) 19 1
                         (VStr "Count"))).
    rewrite bind_unit.
    unfold label_dom, severity_names in Hdom.
    repeat match type of Hdom with
    | Forall _ (_ :: _) =>
        let n := fresh "n" in
        let Hn := fresh "Hn" in
        let H' := fresh "Hdom" in
        inversion Hdom as [|? ? [n Hn] H']; subst; clear Hdom; rename H' into Hdom
    end.
    unfold severity_names. cbn [for_each]. unfold summary_body, label_counts_item.
    rewrite Hn, bind_unit, bind_unit.
    rewrite Hn0, bind_unit, bind_unit.
    rewrite Hn1, bind_unit, bind_unit.
    rewrite Hn2, bind_unit, bind_unit.
    rewrite Hn3, bind_unit, bind_unit.
    rewrite bind_unit. eauto.
Qed.

(** *** The sheets *)

Lemma severity_sheet_body_total (df : DataFrame) (sheets : list Worksheet)
    (severity_val : Z) :
  columns df = vuln_cols -> 0 <= severity_val <= 4 ->
  Z.of_nat (length (records df)) <= max_rows ->
  exists sheets', severity_sheet_body df sheets severity_val = Ok sheets'.
Proof.
  intros Hcols Hz Hrows. unfold severity_sheet_body.
  assert (Hl : exists label color,
             severity_map_item severity_val = Ok label /\
             colors_item label = Ok color).
  { assert (severity_val = 0 \/ severity_val = 1 \/ severity_val = 2 \/
            severity_val = 3 \/ severity_val = 4) as Hc by lia.
    destruct Hc as [->|[->|[->|[->| ->]]]]; eexists _, _;
      split; vm_compute; reflexivity. }
  destruct Hl as (label & color & -> & Hcolor). rewrite bind_unit.
  unfold df_where_eq. rewrite Hcols.
  rewrite bool_decide_eq_true_2
    by (apply (bool_decide_unpack _); vm_compute; exact I).
  rewrite bind_unit.
  destruct (negb _); [|eauto].
  rewrite df_select_known
    by exact disp_cols_known.
  rewrite bind_unit, to_excel_fits.
  - rewrite bind_unit, Hcolor, bind_unit. eauto.
  - cbn [records].
    pose proof (List.filter_length_le
                  (fun d => bool_decide (cell_of d "Severity" = VInt severity_val))
                  (records df)).
    lia.
  - cbn [columns]. unfold disp_cols, max_cols. cbn [length]. lia.
Qed.

Lemma write_excel_total writable output_file hosts vulns comps scan_date :
  pd_ExcelWriter writable output_file = Ok () ->
  Forall host_ok hosts -> Forall finding_ok vulns ->
  Z.of_nat (length hosts) <= max_rows ->
  Z.of_nat (length vulns) <= max_rows ->
  Z.of_nat (length comps) <= max_rows ->
  Z.of_nat (length (columns (pd_DataFrame comps))) <= max_cols ->
  exists sheets,
    write_excel writable hosts vulns comps output_file scan_date = Ok sheets.
Proof.
  intros Hopen Hh Hv Hhn Hvn Hcn Hcc. unfold write_excel.
  rewrite Hopen, bind_unit.
  rewrite (to_excel_fits _ "Home");
    [| unfold pd_DataFrame, max_rows; cbn [records length]; lia
     | now vm_compute ].
  rewrite bind_unit.
  fold (home_sheet hosts vulns comps scan_date).
  destruct (create_dashboard_chart_total
              (home_sheet hosts vulns comps scan_date) hosts vulns Hv)
    as [home ->].
  rewrite bind_unit.
  assert (H1 : exists sheets1,
             match hosts with
             | [] => Ok [home]
             | _ :: _ =>
                 df_hosts ← df_select (pd_DataFrame hosts) host_cols;
                 ws ← to_excel df_hosts "Host Summary" 0;
                 Ok ([home]
                     ++ [set_column (set_column ws "A:B" 20) "C:C" 30])
             end = Ok sheets1).
  { destruct hosts as [|h hosts']; [eauto|].
    rewrite df_select_known.
    - rewrite bind_unit, (to_excel_fits _ "Host Summary");
        [rewrite bind_unit; eauto|exact Hhn|].
      cbn [columns]. unfold host_cols, max_cols. cbn [length]. lia.
    - rewrite (pd_DataFrame_columns host_cols h hosts' NoDup_host_cols).
      + apply Forall_forall. auto.
      + eapply Forall_impl; [exact Hh|]. exact host_ok_shape. }
  destruct H1 as [sheets1 ->]. rewrite bind_unit.
  assert (H2 : exists sheets2,
             match vulns with
             | [] => Ok sheets1
             | _ :: _ =>
                 for_each (severity_sheet_body (pd_DataFrame vulns))
                          [4; 3; 2; 1; 0] sheets1
             end = Ok sheets2).
  { destruct vulns as [|v vulns']; [eauto|].
    destruct (for_each_total
                (severity_sheet_body (pd_DataFrame (v :: vulns')))
                (fun _ => True) (fun z => 0 <= z <= 4)
                [4; 3; 2; 1; 0] sheets1) as (sheets2 & Hrun & _); [| | |eauto].
    - intros st z _ Hz.
      destruct (severity_sheet_body_total (pd_DataFrame (v :: vulns')) st z)
        as [st' Hst']; [|exact Hz|exact Hvn|eauto].
      apply (pd_DataFrame_columns vuln_cols v vulns' NoDup_vuln_cols).
      eapply Forall_impl; [exact Hv|]. intros d Hd.
      exact (proj1 (finding_ok_shape d Hd)).
    - repeat constructor; lia.
    - exact I. }
  destruct H2 as [sheets2 ->]. rewrite bind_unit.
  destruct comps; [eauto|].
  rewrite to_excel_fits by assumption. rewrite bind_unit. eauto.
Qed.

(** Whenever the extractor returns, the workbook can be opened and the
    records fit in a worksheet, the run completes and saves one workbook. *)
Lemma main_completes fs writable args_file args_output
    timestamp scan_date hosts vulns comps :
  parse_nessus_xml fs args_file = Ok (hosts, vulns, comps) ->
  pd_ExcelWriter writable (output_name args_output timestamp) = Ok () ->
  Z.of_nat (length hosts) <= max_rows ->
  Z.of_nat (length vulns) <= max_rows ->
  exists sheets,
    write_excel writable hosts vulns comps (output_name args_output timestamp)
                scan_date = Ok sheets /\
    main fs writable args_file args_output timestamp scan_date
    = mkRun [ "Parsing " +:+ args_file +:+ "...";
              "Found " +:+ show_len hosts +:+ " hosts, " +:+ show_len vulns
                +:+ " vulnerabilities, " +:+ show_len comps
                +:+ " compliance checks.";
              "Report generated: " +:+ output_name args_output timestamp ]
            [(output_name args_output timestamp, sheets)]
            (Ok ()).
Proof.
  intros Hparse Hopen Hhn Hvn.
  destruct (parse_records_ok _ _ _ _ _ Hparse) as (Hh & Hv).
  pose proof (parse_Ok_no_compliance _ _ _ _ _ Hparse) as Hc.
  destruct (write_excel_total writable (output_name args_output timestamp)
              hosts vulns comps scan_date Hopen Hh Hv Hhn Hvn)
    as [sheets Hw].
  - subst comps. cbn. unfold max_rows. lia.
  - subst comps. cbn. unfold max_cols. lia.
  - exists sheets. split; [exact Hw|].
    unfold main. now rewrite Hparse, Hw.
Qed.

(** * Further properties of the extractor *)

Lemma item_body_accepted file_path ip fqdn c v k item :
  counts_dom c -> item_accepted item ->
  exists c' v',
    item_body file_path ip fqdn (c, v, k) item = Ok (c', v', k) /\
    counts_dom c'.
Proof.
  intros Hdom (Hnc & z & Hz & Hrange). unfold item_body.
  rewrite Hz, bind_unit, Hnc.
  destruct (proj2 (Hdom z) Hrange) as [n Hn].
  assert (Hincr : counts_incr c z = Ok (<[z := n + 1]> c)).
  { unfold counts_incr, counts_item. now rewrite Hn. }
  rewrite Hincr, bind_unit.
  destruct (vuln_dict_Ok file_path ip fqdn item z) as [d ->].
  rewrite bind_unit. eexists _, _. split; [reflexivity|].
  now destruct (counts_incr_Ok _ _ _ Hincr Hdom) as (_ & ? & _).
Qed.

Lemma host_body_accepted file_path st report_host :
  Forall item_accepted (report_items report_host) ->
  exists st', host_body file_path st report_host = Ok st'.
Proof.
  intros Hitems. destruct st as [[hosts vulns] comps].
  unfold host_body. rewrite host_props_of_eq.
  rewrite (findall_plain report_host "ReportItem" eq_refl), !bind_unit.
  fold (report_items report_host).
  destruct (for_each_total
              (item_body file_path
                 (props_get (collect_props (host_tags report_host)) "host-ip")
                 (props_get (collect_props (host_tags report_host)) "host-fqdn"))
              (fun st : ItemState => counts_dom (fst (fst st)))
              item_accepted (report_items report_host)
              (init_counts, vulns, comps))
    as ([[c v] k] & Hrun & Hdom).
  - intros [[c v] k] item Hc Hi. cbn [fst] in Hc.
    destruct (item_body_accepted file_path
                (props_get (collect_props (host_tags report_host)) "host-ip")
                (props_get (collect_props (host_tags report_host)) "host-fqdn")
                c v k item Hc Hi) as (c' & v' & Hb & Hc').
    exists (c', v', k). now split.
  - exact Hitems.
  - exact init_counts_dom.
  - rewrite Hrun, bind_unit. cbn [fst] in Hdom.
    destruct (counts_sum_five c Hdom)
      as (c4 & c3 & c2 & c1 & c0 & H4 & H3 & H2 & H1 & H0 & _).
    unfold host_dict, counts_item. rewrite H4, H3, H2, H1, H0.
    rewrite !bind_unit. eauto.
Qed.





(** An item that is not accepted makes the body of the item loop raise. *)
Lemma item_body_rejected file_path ip fqdn c v k item :
  counts_dom c -> ~ item_accepted item ->
  exists e, item_body file_path ip fqdn (c, v, k) item = Raise e.
Proof.
  intros Hdom Hrej. unfold item_body.
  destruct (py_int (attrib item !! "severity")) as [z|e] eqn:Hz;
    [|simpl; eauto].
  rewrite bind_unit.
  destruct (is_compliance item) eqn:Hc.
  - rewrite compliance_dict_raises. simpl. eauto.
  - unfold counts_incr, counts_item.
    destruct (c !! z) as [n|] eqn:Hn; [|simpl; eauto].
    exfalso. apply Hrej. split; [exact Hc|].
    exists z. split; [exact Hz|]. apply Hdom. eauto.
Qed.

(** Whether an item is accepted can be decided. *)
Lemma classic_item (item : Element) : item_accepted item \/ ~ item_accepted item.
Proof.
  unfold item_accepted.
  destruct (is_compliance item); [right; intros [? _]; discriminate|].
  destruct (py_int (attrib item !! "severity")) as [z|e].
  - destruct (decide (0 <= z <= 4)) as [Hz|Hz].
    + left. split; [reflexivity|]. now exists z.
    + right. intros (_ & z' & Heq & Hz'). apply Ok_inj in Heq. now subst z'.
  - right. intros (_ & z' & Heq & _). discriminate.
Qed.

(** X1: the extractor returns its three lists exactly for the documents
    that have a report container among the children of the root and whose
    items are all non-compliance items with an integer severity from 0 to 4;
    on every other document it raises. *)
Theorem extractor_returns_iff_accepted fs file_path root :
  fs file_path = Document root ->
  (exists st, parse_nessus_xml fs file_path = Ok st) <-> document_accepted root.
Proof.
  intros Hfs. split.
  - intros [[[hosts vulns] comps] Hrun].
    destruct (parse_Ok _ _ _ _ _ Hrun) as (root' & Hfs' & Hrep & _).
    assert (root' = root) as -> by congruence.
    split; [exact Hrep|].
    apply List.Forall_forall. intros h Hh.
    apply List.Forall_forall. intros item Hi.
    destruct (classic_item item) as [Hacc|Hrej]; [exact Hacc|].
    exfalso.
    destruct (item_failure_aborts fs file_path root h item Hfs Hh Hi)
      as [e He]; [|congruence].
    intros ip fqdn c v k Hdom. now apply item_body_rejected.
  - intros ([report Hrep] & Hall).
    unfold parse_nessus_xml. rewrite Hfs.
    rewrite (find_plain root "Report" eq_refl), bind_unit, Hrep.
    rewrite (findall_plain report "ReportHost" eq_refl), bind_unit.
    rewrite <- (report_hosts_of_report root report Hrep).
    destruct (for_each_total (host_body file_path) (fun _ => True)
                (fun h => Forall item_accepted (report_items h))
                (report_hosts root) ([], [], [])) as (st & Hrun & _);
      [| exact Hall | exact I | eauto].
    intros st h _ Hh.
    destruct (host_body_accepted file_path st h Hh) as [st' Hst'].
    now exists st'.
Qed.

Lemma extractor_returns_iff_accepted_witness :
  (exists st, parse_nessus_xml (one_file doc_two_findings) "scan.nessus" = Ok st)
  <-> document_accepted doc_two_findings.
Proof.
  apply (extractor_returns_iff_accepted (one_file doc_two_findings)
           "scan.nessus" doc_two_findings).
  reflexivity.
Defined.

(** X2: a finding item that is a compliance item, or has no severity
    attribute, or a severity that is not an integer, or an integer severity
    outside 0..4, ends the run with an exception raised in the extractor;
    no workbook is written. *)
Theorem rejected_item_ends_run fs writable args_file args_output
    timestamp scan_date root report_host item :
  fs args_file = Document root ->
  In report_host (report_hosts root) ->
  In item (report_items report_host) ->
  (is_compliance item = true \/
   attrib item !! "severity" = None \/
   (exists s, attrib item !! "severity" = Some s /\ int_of_string s = None) \/
   (exists z, py_int (attrib item !! "severity") = Ok z /\ ~ 0 <= z <= 4)) ->
  exists e,
    parse_nessus_xml fs args_file = Raise e /\
    outcome (main fs writable args_file args_output timestamp scan_date)
    = Raise e /\
    files (main fs writable args_file args_output timestamp scan_date) = [].
Proof.
  intros Hfs Hh Hi Hcase.
  assert (Hrej : ~ item_accepted item).
  { intros (Hnc & z & Hz & Hrange).
    destruct Hcase as [Hc|[Hnone|[(s & Hs & Hint)|(z' & Hz' & Hout)]]].
    - congruence.
    - rewrite Hnone in Hz. discriminate.
    - rewrite Hs in Hz. unfold py_int in Hz. rewrite Hint in Hz. discriminate.
    - rewrite Hz in Hz'. apply Ok_inj in Hz'. subst z'. contradiction. }
  destruct (item_failure_aborts fs args_file root report_host item Hfs Hh Hi)
    as [e He].
  - intros ip fqdn c v k Hdom. now apply item_body_rejected.
  - exists e. split; [exact He|]. now apply main_parse_raises.
Qed.

Lemma rejected_item_ends_run_witness :
  exists e,
    parse_nessus_xml (one_file doc_no_severity) "scan.nessus" = Raise e /\
    outcome (main (one_file doc_no_severity) always_writable "scan.nessus" None
                  "20240101000000" "2024-01-01 00:00:00") = Raise e /\
    files (main (one_file doc_no_severity) always_writable "scan.nessus" None
                "20240101000000" "2024-01-01 00:00:00") = [].
Proof.
  apply (rejected_item_ends_run (one_file doc_no_severity) always_writable
           "scan.nessus" None
           "20240101000000" "2024-01-01 00:00:00" doc_no_severity
           (sample_host [sample_item "3" "General";
                         elem "ReportItem" [("pluginFamily", "General")] None []])
           (elem "ReportItem" [("pluginFamily", "General")] None [])).
  - reflexivity.
  - vm_compute. left. reflexivity.
  - vm_compute. right. left. reflexivity.
  - right. left. reflexivity.
Defined.

Lemma for_each_app {A S} (body : S -> A -> PyResult S) (l1 l2 : list A) (s : S) :
  for_each body (l1 ++ l2) s = for_each body l1 s ≫= for_each body l2.
Proof.
  revert s. induction l1 as [|x l1 IH]; intros s; [reflexivity|].
  cbn [for_each app]. destruct (body s x) as [s'|e]; [|reflexivity].
  rewrite !bind_unit. apply IH.
Qed.

Lemma item_body_error file_path ip fqdn c v k item :
  counts_dom c -> ~ item_accepted item ->
  item_body file_path ip fqdn (c, v, k) item = Raise (item_error item).
Proof.
  intros Hdom Hrej. unfold item_body, item_error.
  destruct (py_int (attrib item !! "severity")) as [z|e] eqn:Hz;
    [|reflexivity].
  rewrite bind_unit.
  destruct (is_compliance item) eqn:Hc.
  - now rewrite compliance_dict_raises.
  - unfold counts_incr, counts_item.
    destruct (c !! z) as [n|] eqn:Hn; [|reflexivity].
    exfalso. apply Hrej. split; [exact Hc|].
    exists z. split; [exact Hz|]. apply Hdom. eauto.
Qed.

(** X3: the exception that ends the run is that of the first item, in
    document order, that is not accepted: [TypeError] for a missing severity,
    [ValueError] for one that is not an integer, [SyntaxError] for a
    compliance item, [KeyError] of the severity for an integer outside
    0..4. *)
Theorem first_rejected_item_decides_error fs file_path root
    hosts_before report_host hosts_after items_before item items_after :
  fs file_path = Document root ->
  is_Some (head (child_elems "Report" root)) ->
  report_hosts root = hosts_before ++ report_host :: hosts_after ->
  Forall (fun h => Forall item_accepted (report_items h)) hosts_before ->
  report_items report_host = items_before ++ item :: items_after ->
  Forall item_accepted items_before ->
  ~ item_accepted item ->
  parse_nessus_xml fs file_path = Raise (item_error item).
Proof.
  intros Hfs [report Hrep] Hhosts Hbefore Hitems Hib Hrej.
  unfold parse_nessus_xml. rewrite Hfs.
  rewrite (find_plain root "Report" eq_refl), bind_unit, Hrep.
  rewrite (findall_plain report "ReportHost" eq_refl), bind_unit.
  rewrite <- (report_hosts_of_report root report Hrep), Hhosts.
  rewrite for_each_app.
  destruct (for_each_total (host_body file_path) (fun _ => True)
              (fun h => Forall item_accepted (report_items h))
              hosts_before ([], [], [])) as ([[hs vs] ks] & -> & _);
    [| exact Hbefore | exact I |].
  { intros st h _ Hh.
    destruct (host_body_accepted file_path st h Hh) as [st' Hst'].
    now exists st'. }
  rewrite bind_unit. cbn [for_each].
  assert (Hhost : host_body file_path (hs, vs, ks) report_host
                  = Raise (item_error item)).
  { unfold host_body. rewrite host_props_of_eq.
    rewrite (findall_plain report_host "ReportItem" eq_refl), !bind_unit.
    fold (report_items report_host). rewrite Hitems, for_each_app.
    destruct (for_each_total
                (item_body file_path
                   (props_get (collect_props (host_tags report_host)) "host-ip")
                   (props_get (collect_props (host_tags report_host))
                              "host-fqdn"))
                (fun st : ItemState => counts_dom (fst (fst st)))
                item_accepted items_before (init_counts, vs, ks))
      as ([[c v] k] & -> & Hdom);
      [| exact Hib | exact init_counts_dom |].
    { intros [[c v] k] x Hc Hx. cbn [fst] in Hc.
      destruct (item_body_accepted file_path
                  (props_get (collect_props (host_tags report_host)) "host-ip")
                  (props_get (collect_props (host_tags report_host))
                             "host-fqdn")
                  c v k x Hc Hx) as (c' & v' & Hb & Hc').
      exists (c', v', k). now split. }
    rewrite bind_unit. cbn [for_each fst] in *.
    now rewrite (item_body_error _ _ _ c v k item Hdom Hrej). }
  now rewrite Hhost.
Qed.

Lemma first_rejected_item_decides_error_witness :
  parse_nessus_xml (one_file doc_second_host_bad) "scan.nessus"
  = Raise (KeyError (VInt 7)).
Proof.
  apply (first_rejected_item_decides_error (one_file doc_second_host_bad)
           "scan.nessus" doc_second_host_bad
           [sample_host [sample_item "1" "General"]]
           (sample_host [sample_item "0" "General"; sample_item "7" "General";
                         sample_item "abc" "General"])
           []
           [sample_item "0" "General"] (sample_item "7" "General")
           [sample_item "abc" "General"]).
  - reflexivity.
  - vm_compute. eauto.
  - vm_compute. reflexivity.
  - repeat constructor; try (vm_compute; reflexivity).
    exists 1. split; [vm_compute; reflexivity|lia].
  - vm_compute. reflexivity.
  - repeat constructor; try (vm_compute; reflexivity).
    exists 0. split; [vm_compute; reflexivity|lia].
  - intros (_ & z & Hz & Hrange). vm_compute in Hz.
    apply Ok_inj in Hz. subst z. lia.
Defined.

(** * Further properties of a run *)

(** X4: whenever the extractor returns, what is left depends on the output
    name and on the sizes only.  The name is the output argument, or
    [nessus_report_<timestamp>.xlsx] when that argument is missing or empty.
    If the workbook cannot be opened under that name the run ends with the
    exception of [pd.ExcelWriter] after its second line and saves nothing.
    If it can, and neither the hosts nor the findings outnumber the rows of a
    worksheet, the composer raises nothing: the run ends normally, prints its
    three lines and saves exactly one workbook under that name. *)
Theorem run_completes_after_extraction fs writable args_file args_output
    timestamp scan_date hosts vulns comps :
  parse_nessus_xml fs args_file = Ok (hosts, vulns, comps) ->
  (pd_ExcelWriter writable (output_name args_output timestamp) = Ok () ->
   Z.of_nat (length hosts) <= max_rows ->
   Z.of_nat (length vulns) <= max_rows ->
   exists sheets,
     write_excel writable hosts vulns comps
                 (output_name args_output timestamp) scan_date = Ok sheets /\
     main fs writable args_file args_output timestamp scan_date
     = mkRun [ "Parsing " +:+ args_file +:+ "...";
               "Found " +:+ show_len hosts +:+ " hosts, " +:+ show_len vulns
                 +:+ " vulnerabilities, " +:+ show_len comps
                 +:+ " compliance checks.";
               "Report generated: " +:+ output_name args_output timestamp ]
             [(output_name args_output timestamp, sheets)]
             (Ok ())) /\
  (forall e,
     pd_ExcelWriter writable (output_name args_output timestamp) = Raise e ->
     main fs writable args_file args_output timestamp scan_date
     = mkRun [ "Parsing " +:+ args_file +:+ "...";
               "Found " +:+ show_len hosts +:+ " hosts, " +:+ show_len vulns
                 +:+ " vulnerabilities, " +:+ show_len comps
                 +:+ " compliance checks." ]
             [] (Raise e)) /\
  (args_output = None \/ args_output = Some "" ->
   output_name args_output timestamp
   = "nessus_report_" +:+ timestamp +:+ ".xlsx") /\
  (forall o, args_output = Some o -> o ≠ "" ->
             output_name args_output timestamp = o).
Proof.
  intros Hparse. split; [|split; [|split]].
  - intros Hopen Hhn Hvn.
    exact (main_completes fs writable args_file args_output timestamp
             scan_date hosts vulns comps Hparse Hopen Hhn Hvn).
  - intros e Hopen. unfold main, write_excel. now rewrite Hparse, Hopen.
  - now intros [->| ->].
  - intros o -> Ho. destruct o; [contradiction|reflexivity].
Qed.

Lemma run_completes_after_extraction_witness :
  exists sheets,
    write_excel always_writable two_findings_hosts two_findings_vulns
                two_findings_comps
                (output_name (Some "out.xlsx") "20240101000000")
                "2024-01-01 00:00:00" = Ok sheets /\
    main (one_file doc_two_findings) always_writable "scan.nessus"
         (Some "out.xlsx") "20240101000000" "2024-01-01 00:00:00"
    = mkRun [ "Parsing " +:+ "scan.nessus" +:+ "...";
              "Found " +:+ show_len two_findings_hosts +:+ " hosts, "
                +:+ show_len two_findings_vulns
                +:+ " vulnerabilities, " +:+ show_len two_findings_comps
                +:+ " compliance checks.";
              "Report generated: "
                +:+ output_name (Some "out.xlsx") "20240101000000" ]
            [(output_name (Some "out.xlsx") "20240101000000", sheets)]
            (Ok ()).
Proof.
  apply (run_completes_after_extraction (one_file doc_two_findings)
           always_writable "scan.nessus" (Some "out.xlsx") "20240101000000"
           "2024-01-01 00:00:00").
  - vm_compute. reflexivity.
  - vm_compute. reflexivity.
  - now vm_compute.
  - now vm_compute.
Defined.

(** X5: a path with no file, a file that is not XML, and a document whose
    root has no child named Report each end the run with exit status 1 after
    one diagnostic line, and no workbook is written. *)
Theorem fatal_input_exits_1 fs writable args_file args_output
    timestamp scan_date :
  (fs args_file = NoFile \/
   (exists e, fs args_file = BadXML e) \/
   (exists root, fs args_file = Document root /\
                 Forall (fun child => tag child ≠ "Report") (children root))) ->
  exists msg,
    main fs writable args_file args_output timestamp scan_date
    = mkRun ["Parsing " +:+ args_file +:+ "..."; msg] []
            (Raise (SystemExit 1 msg)).
Proof.
  intros [Hno|[(e & Hbad)|(root & Hdoc & Hnone)]]; unfold main, parse_nessus_xml.
  - rewrite Hno. eexists. reflexivity.
  - rewrite Hbad. eexists. reflexivity.
  - rewrite Hdoc, (find_plain root "Report" eq_refl), bind_unit.
    assert (E : child_elems "Report" root = []).
    { unfold child_elems. induction Hnone as [|c cs Hc _ IH]; [reflexivity|].
      cbn [List.filter]. unfold has_tag at 1.
      now rewrite bool_decide_eq_false_2. }
    rewrite E. eexists. reflexivity.
Qed.

Lemma fatal_input_exits_1_witness :
  exists msg,
    main (one_file (elem "NessusClientData_v2" [] None
                      [elem "Policy" [] None [elem "Report" [] None []]]))
         always_writable
         "scan.nessus" None "20240101000000" "2024-01-01 00:00:00"
    = mkRun ["Parsing " +:+ "scan.nessus" +:+ "..."; msg] []
            (Raise (SystemExit 1 msg)).
Proof.
  apply (fatal_input_exits_1
           (one_file (elem "NessusClientData_v2" [] None
                        [elem "Policy" [] None [elem "Report" [] None []]]))
           always_writable
           "scan.nessus" None "20240101000000" "2024-01-01 00:00:00").
  right. right. eexists. split; [reflexivity|].
  repeat constructor. discriminate.
Defined.

(** X6: no run writes a sheet named Compliance: a document with a compliance
    item ends the run in the extractor, and without one the compliance list
    is empty. *)
Theorem no_run_writes_compliance_sheet fs writable args_file args_output
    timestamp scan_date name sheets :
  In (name, sheets)
     (files (main fs writable args_file args_output timestamp scan_date)) ->
  Forall (fun ws => ws_name ws ≠ "Compliance") sheets.
Proof.
  unfold main.
  destruct (parse_nessus_xml fs args_file) as [[[hosts vulns] comps]|e] eqn:Hp;
    [|intros []].
  pose proof (parse_Ok_no_compliance _ _ _ _ _ Hp) as ->.
  destruct (write_excel writable hosts vulns [] _ scan_date)
    as [sheets'|e] eqn:Hw;
    [|intros []].
  cbn [files]. intros [[= <- <-]|[]].
  apply List.Forall_forall. intros ws Hin Hname.
  destruct (write_excel_sheet _ _ _ _ _ _ _ _ Hw Hin)
    as [Hhome|[(_ & ->)|[(z & Hz)|(Hne & _)]]].
  - rewrite Hhome in Hname. discriminate.
  - discriminate.
  - destruct (severity_sheet_Some _ _ _ Hz) as (Hl & _ & _).
    rewrite Hname in Hl. apply severity_map_cases in Hl.
    intuition discriminate.
  - now apply Hne.
Qed.

Lemma no_run_writes_compliance_sheet_witness :
  Forall (fun ws => ws_name ws ≠ "Compliance") two_findings_sheets.
Proof.
  apply (no_run_writes_compliance_sheet (one_file doc_two_findings)
           always_writable "scan.nessus" None "20240101000000"
           "2024-01-01 00:00:00"
           "nessus_report_20240101000000.xlsx" two_findings_sheets).
  vm_compute. left. reflexivity.
Defined.

(** * Further properties of the records *)

Lemma severity_count_app (z : Z) (l1 l2 : list PyDict) :
  severity_count z (l1 ++ l2) = severity_count z l1 + severity_count z l2.
Proof.
  unfold severity_count, with_severity.
  rewrite List.filter_app, length_app. lia.
Qed.

Lemma item_body_counts file_path ip fqdn c v k item c' v' k' :
  item_body file_path ip fqdn (c, v, k) item = Ok (c', v', k') ->
  forall z,
    c' !! z
    = (fun n => n + severity_count z (findings_of file_path ip fqdn [item]))
        <$> c !! z.
Proof.
  unfold item_body, findings_of, item_record. simpl.
  intros H. inv_bind H. rewrite Ha.
  destruct (is_compliance item); [discriminate|].
  inv_bind H. injection H as <- <- <-.
  unfold counts_incr, counts_item in Ha0.
  destruct (c !! a) as [n|] eqn:Hn; [|discriminate].
  simpl in Ha0. injection Ha0 as <-.
  intros z. rewrite lookup_insert. unfold severity_count, with_severity.
  cbn [List.filter].
  match goal with
  | |- context [cell_of ?d "Severity"] =>
      change (cell_of d "Severity") with (VInt a)
  end.
  case_decide as Hz.
  - subst z. rewrite Hn. cbn [fmap option_fmap option_map].
    rewrite bool_decide_eq_true_2 by reflexivity. reflexivity.
  - rewrite bool_decide_eq_false_2 by congruence.
    destruct (c !! z); cbn; [f_equal; lia|reflexivity].
Qed.

Lemma item_loop_counts file_path ip fqdn items c0 v0 k0 c v k :
  for_each (item_body file_path ip fqdn) items (c0, v0, k0) = Ok (c, v, k) ->
  forall z,
    c !! z
    = (fun n => n + severity_count z (findings_of file_path ip fqdn items))
        <$> c0 !! z.
Proof.
  intros Hrun.
  apply (for_each_invariant (item_body file_path ip fqdn)
    (fun done (st : ItemState) =>
       forall z,
         fst (fst st) !! z
         = (fun n => n + severity_count z (findings_of file_path ip fqdn done))
             <$> c0 !! z)
    items (c0, v0, k0) (c, v, k)); [| |exact Hrun].
  - intros z. cbn [fst]. destruct (c0 !! z); cbn; [|reflexivity].
    change (severity_count z []) with 0. f_equal. lia.
  - intros done x [[c1 v1] k1] [[c2 v2] k2] Hinv Hstep z. cbn [fst] in *.
    rewrite (item_body_counts _ _ _ _ _ _ _ _ _ _ Hstep z), (Hinv z).
    rewrite findings_of_app, severity_count_app.
    destruct (c0 !! z); cbn; [f_equal; lia|reflexivity].
Qed.

Lemma host_body_counts file_path hosts vulns comps report_host
    hosts' vulns' comps' :
  host_body file_path (hosts, vulns, comps) report_host
  = Ok (hosts', vulns', comps') ->
  exists d, hosts' = hosts ++ [d] /\ host_counts_ok file_path report_host d.
Proof.
  unfold host_body. rewrite host_props_of_eq.
  rewrite (findall_plain report_host "ReportItem" eq_refl), !bind_unit.
  fold (host_field report_host "host-ip").
  fold (host_field report_host "host-fqdn").
  fold (report_items report_host).
  intros H. inv_bind H. destruct a as [[c v] k].
  pose proof (item_loop_counts _ _ _ _ _ _ _ _ _ _ Ha) as Hc.
  fold (host_findings file_path report_host) in Hc.
  unfold host_dict, counts_item in H.
  rewrite (Hc 4), (Hc 3), (Hc 2), (Hc 1), (Hc 0) in H.
  change (init_counts !! 4) with (Some 0) in H.
  change (init_counts !! 3) with (Some 0) in H.
  change (init_counts !! 2) with (Some 0) in H.
  change (init_counts !! 1) with (Some 0) in H.
  change (init_counts !! 0) with (Some 0) in H.
  cbn [fmap option_fmap option_map] in H. rewrite !bind_unit in H.
  injection H as <- _ _.
  eexists. split; [reflexivity|]. now repeat split.
Qed.

(** X7: in every HostRecord the extractor returns, each of the five counts
    is the number of FindingRecords of that host with that severity:
    Critical counts severity 4, High 3, Medium 2, Low 1 and Info 0. *)
Theorem host_counts_by_severity fs file_path root hosts vulns comps :
  fs file_path = Document root ->
  parse_nessus_xml fs file_path = Ok (hosts, vulns, comps) ->
  Forall2 (host_counts_ok file_path) (report_hosts root) hosts.
Proof.
  unfold parse_nessus_xml. intros ->.
  rewrite (find_plain root "Report" eq_refl), bind_unit.
  destruct (head (child_elems "Report" root)) as [report|] eqn:Hrep;
    [|discriminate].
  rewrite (findall_plain report "ReportHost" eq_refl), bind_unit.
  rewrite <- (report_hosts_of_report root report Hrep).
  intros Hrun.
  apply (for_each_invariant (host_body file_path)
    (fun done (st : ParseState) =>
       Forall2 (host_counts_ok file_path) done (fst (fst st)))
    (report_hosts root) ([], [], []) (hosts, vulns, comps));
    [constructor| |exact Hrun].
  intros done x [[h1 v1] k1] [[h2 v2] k2] Hinv Hstep. cbn [fst] in *.
  destruct (host_body_counts _ _ _ _ _ _ _ _ Hstep) as (d & -> & Hd).
  apply Forall2_app; [assumption|]. now constructor.
Qed.

Lemma host_counts_by_severity_witness :
  Forall2 (host_counts_ok "scan.nessus") (report_hosts doc_two_findings)
          two_findings_hosts.
Proof.
  apply (host_counts_by_severity (one_file doc_two_findings) "scan.nessus"
           doc_two_findings two_findings_hosts two_findings_vulns
           two_findings_comps).
  - reflexivity.
  - vm_compute. reflexivity.
Defined.

Lemma collect_props_last (key : string) (tags : list Element)
    (m : gmap (option string) (option string)) :
  foldl (fun host_props t => <[attrib t !! "name" := text t]> host_props) m tags
    !! Some key
  = match last (named_tags key tags) with
    | Some t => Some (text t)
    | None => m !! Some key
    end.
Proof.
  revert m. induction tags as [|t tags IH]; intros m; [reflexivity|].
  cbn [foldl]. rewrite IH. unfold named_tags. cbn [List.filter].
  fold (named_tags key tags).
  case_bool_decide as Hname.
  - rewrite last_cons. destruct (last (named_tags key tags)); [reflexivity|].
    rewrite Hname. now rewrite lookup_insert_eq.
  - destruct (last (named_tags key tags)); [reflexivity|].
    now rewrite lookup_insert_ne.
Qed.

Lemma host_field_last (report_host : Element) (key : string) :
  host_field report_host key = last_tag_text report_host key.
Proof.
  unfold host_field, props_get, collect_props, last_tag_text.
  rewrite collect_props_last.
  destruct (last (named_tags key (host_tags report_host))); [reflexivity|].
  now rewrite lookup_empty.
Qed.

(** X8: in every HostRecord the extractor returns, an identity field holds
    the text of the last [tag] of the property sub-tree that carries its
    name; when that tag has no text the field is [None], not N/A, and only
    when no tag carries the name is it N/A. *)
Theorem identity_field_is_last_tag fs file_path root hosts vulns comps :
  fs file_path = Document root ->
  parse_nessus_xml fs file_path = Ok (hosts, vulns, comps) ->
  Forall2
    (fun report_host d =>
       dict_get "IP Address" d
       = Some (of_opt (last_tag_text report_host "host-ip")) /\
       dict_get "FQDN" d
       = Some (of_opt (last_tag_text report_host "host-fqdn")) /\
       dict_get "Operating System" d
       = Some (of_opt (last_tag_text report_host "operating-system")))
    (report_hosts root) hosts.
Proof.
  intros Hfs Hrun.
  destruct (parse_Ok _ _ _ _ _ Hrun) as (root' & Hfs' & _ & Hrec & _ & _).
  assert (root' = root) as -> by congruence.
  eapply Forall2_impl; [exact Hrec|].
  intros h d (c4 & c3 & c2 & c1 & c0 & -> & _).
  rewrite <- !host_field_last. now repeat split.
Qed.

Lemma identity_field_is_last_tag_witness :
  Forall2
    (fun report_host d =>
       dict_get "IP Address" d
       = Some (of_opt (last_tag_text report_host "host-ip")) /\
       dict_get "FQDN" d
       = Some (of_opt (last_tag_text report_host "host-fqdn")) /\
       dict_get "Operating System" d
       = Some (of_opt (last_tag_text report_host "operating-system")))
    (report_hosts doc_repeated_tags) (fst (fst repeated_tags_parsed)).
Proof.
  apply (identity_field_is_last_tag (one_file doc_repeated_tags) "scan.nessus"
           doc_repeated_tags (fst (fst repeated_tags_parsed))
           (snd (fst repeated_tags_parsed)) (snd repeated_tags_parsed)).
  - reflexivity.
  - vm_compute. reflexivity.
Defined.

(** What the repeated-tags sample gives: the second address, and [None] for
    the FQDN whose tag is empty. *)
Example repeated_tags_record :
  fst (fst repeated_tags_parsed)
  = [[ ("IP Address", VStr "10.0.0.9"); ("FQDN", VNone);
       ("Operating System", VStr "N/A"); ("Critical", VInt 0);
       ("High", VInt 0); ("Medium", VInt 1); ("Low", VInt 0);
       ("Info", VInt 0); ("Total", VInt 1) ]].
Proof. reflexivity. Qed.

(** X9: every FindingRecord the extractor returns has a severity from 0 to 4
    and carries the label of that severity; the label Unknown never
    appears in a returned record. *)
Theorem returned_findings_have_known_label fs file_path hosts vulns comps :
  parse_nessus_xml fs file_path = Ok (hosts, vulns, comps) ->
  Forall
    (fun d =>
       exists z label,
         0 <= z <= 4 /\
         dict_get "Severity" d = Some (VInt z) /\
         SEVERITY_MAP !! z = Some label /\
         dict_get "Severity Label" d = Some (VStr label) /\
         label ≠ "Unknown")
    vulns.
Proof.
  intros Hrun. destruct (parse_records_ok _ _ _ _ _ Hrun) as (_ & Hv).
  eapply Forall_impl; [exact Hv|].
  intros d (file & ip & fqdn & item & z & Hz & Hd).
  unfold vuln_dict in Hd.
  repeat match type of Hd with
  | context [findtext item ?n] =>
      let t := fresh "t" in
      let Ht := fresh "Ht" in
      destruct (findtext_plain item n eq_refl) as [t Ht];
      rewrite Ht, bind_unit in Hd
  end.
  apply Ok_inj in Hd. subst d.
  assert (z = 0 \/ z = 1 \/ z = 2 \/ z = 3 \/ z = 4) as Hc by lia.
  destruct Hc as [->|[->|[->|[->| ->]]]];
    [exists 0, "Info"|exists 1, "Low"|exists 2, "Medium"|exists 3, "High"
    |exists 4, "Critical"];
    (split; [lia|]); (split; [reflexivity|]);
    (split; [vm_compute; reflexivity|]); (split; [reflexivity|discriminate]).
Qed.

Lemma returned_findings_have_known_label_witness :
  Forall
    (fun d =>
       exists z label,
         0 <= z <= 4 /\
         dict_get "Severity" d = Some (VInt z) /\
         SEVERITY_MAP !! z = Some label /\
         dict_get "Severity Label" d = Some (VStr label) /\
         label ≠ "Unknown")
    two_findings_vulns.
Proof.
  apply (returned_findings_have_known_label (one_file doc_two_findings)
           "scan.nessus" two_findings_hosts two_findings_vulns
           two_findings_comps).
  vm_compute. reflexivity.
Defined.

(** X10: the Total fields of the HostRecords the extractor returns add up to
    the number of FindingRecords it returns. *)
Theorem host_totals_add_up fs file_path hosts vulns comps :
  parse_nessus_xml fs file_path = Ok (hosts, vulns, comps) ->
  foldr (fun d acc => host_total d + acc) 0 hosts = Z.of_nat (length vulns).
Proof.
  intros Hrun.
  destruct (parse_Ok _ _ _ _ _ Hrun) as (root & _ & _ & Hrec & -> & _).
  clear Hrun.
  induction Hrec as [|h d hs ds Hd _ IH]; [reflexivity|].
  cbn [foldr fmap list_fmap concat]. rewrite length_app, IH.
  destruct Hd as (c4 & c3 & c2 & c1 & c0 & -> & Hsum).
  match goal with
  | |- context [host_total ?d] =>
      change (host_total d) with (c4 + c3 + c2 + c1 + c0)
  end.
  lia.
Qed.

Lemma host_totals_add_up_witness :
  foldr (fun d acc => host_total d + acc) 0 two_findings_hosts
  = Z.of_nat (length two_findings_vulns).
Proof.
  apply (host_totals_add_up (one_file doc_two_findings) "scan.nessus"
           two_findings_hosts two_findings_vulns two_findings_comps).
  vm_compute. reflexivity.
Defined.

(** * Further properties of the composer *)

Lemma severity_count_one (z : Z) (d : PyDict) (x : Value) :
  dict_get "Severity" d = Some x ->
  severity_count z [d] = if bool_decide (x = VInt z) then 1 else 0.
Proof.
  intros Hx. unfold severity_count, with_severity, cell_of.
  cbn [List.filter]. rewrite Hx. change (default VNone (Some x)) with x.
  destruct (bool_decide (x = VInt z)); reflexivity.
Qed.

Lemma severity_map_get_Some (x : Value) (label : string) :
  severity_map_get x = Some label ->
  exists z, x = VInt z /\ SEVERITY_MAP !! z = Some label /\
            label ≠ "" /\ label ∈ severity_names.
Proof.
  destruct x as [|s|z]; try discriminate. cbn [severity_map_get].
  intros H. exists z. split; [reflexivity|]. split; [exact H|].
  apply severity_map_cases in H.
  destruct H as [[_ ->]|[[_ ->]|[[_ ->]|[[_ ->]|[_ ->]]]]];
    (split; [discriminate|]); apply list_elem_of_In; vm_compute; tauto.
Qed.

Lemma severity_map_injective (z z' : Z) (label : string) :
  SEVERITY_MAP !! z = Some label -> SEVERITY_MAP !! z' = Some label -> z = z'.
Proof.
  intros H H'. apply severity_map_cases in H. apply severity_map_cases in H'.
  intuition (subst; congruence).
Qed.

(** One normal step of the tally: the record has a Severity key, and the
    count of each label grows by one exactly when the record has that
    severity. *)
Lemma tally_body_Ok (c c' : gmap string Z) (d : PyDict) :
  tally_body c d = Ok c' ->
  has_severity d /\
  forall z label,
    SEVERITY_MAP !! z = Some label ->
    c' !! label = (fun n => n + severity_count z [d]) <$> c !! label.
Proof.
  unfold tally_body, dict_item, has_severity.
  destruct (dict_get "Severity" d) as [x|] eqn:Hx; [|discriminate].
  rewrite bind_unit. intros H. split; [eauto|].
  intros z label Hl. rewrite (severity_count_one z d x Hx).
  destruct (severity_map_get x) as [label'|] eqn:Hget.
  - destruct (severity_map_get_Some x label' Hget) as (z' & -> & Hl' & Hne & _).
    rewrite bool_decide_eq_false_2 in H by exact Hne.
    inv_bind H. apply Ok_inj in H. subst c'.
    unfold label_counts_item in Ha.
    destruct (c !! label') as [n|] eqn:Hn; [|discriminate].
    apply Ok_inj in Ha. subst a.
    rewrite lookup_insert. case_decide as Heq.
    + subst label'. rewrite Hn.
      rewrite (severity_map_injective z' z label Hl' Hl).
      now rewrite bool_decide_eq_true_2.
    + rewrite bool_decide_eq_false_2.
      * destruct (c !! label); cbn; [f_equal; lia|reflexivity].
      * intros [= ->]. apply Heq. congruence.
  - apply Ok_inj in H. subst c'.
    rewrite bool_decide_eq_false_2.
    + destruct (c !! label); cbn; [f_equal; lia|reflexivity].
    + intros ->. cbn [severity_map_get] in Hget. congruence.
Qed.

Lemma tally_loop_Ok (vulns : list PyDict) (c0 c : gmap string Z) :
  for_each tally_body vulns c0 = Ok c ->
  Forall has_severity vulns /\
  forall z label,
    SEVERITY_MAP !! z = Some label ->
    c !! label = (fun n => n + severity_count z vulns) <$> c0 !! label.
Proof.
  intros Hrun.
  apply (for_each_invariant tally_body
    (fun done (c : gmap string Z) =>
       Forall has_severity done /\
       forall z label,
         SEVERITY_MAP !! z = Some label ->
         c !! label = (fun n => n + severity_count z done) <$> c0 !! label)
    vulns c0 c); [| |exact Hrun].
  - split; [constructor|]. intros z label _.
    change (severity_count z []) with 0.
    destruct (c0 !! label); cbn; [f_equal; lia|reflexivity].
  - intros done x c1 c2 (Hall & Hinv) Hstep.
    destruct (tally_body_Ok _ _ _ Hstep) as (Hx & Hc).
    split; [apply Forall_app; split; [assumption|now constructor]|].
    intros z label Hl. rewrite (Hc z label Hl), (Hinv z label Hl).
    rewrite severity_count_app.
    destruct (c0 !! label); cbn; [f_equal; lia|reflexivity].
Qed.

Lemma summary_body_lookup severity_counts worksheet row sev st' :
  summary_body severity_counts (worksheet, row) sev = Ok st' ->
  exists n,
    severity_counts !! sev = Some n /\
    st' = (ws_write (ws_write worksheet row 0 (VStr sev)) row 1 (VInt n), S row).
Proof.
  unfold summary_body, label_counts_item. intros H.
  destruct (severity_counts !! sev) as [n|]; [|discriminate].
  rewrite bind_unit in H. apply Ok_inj in H. eauto.
Qed.

(** The sheet after a normal return of [create_dashboard_chart], with the
    counts the summary cells hold. *)
Lemma create_dashboard_chart_counts worksheet hosts_data vulnerabilities
    worksheet' :
  create_dashboard_chart worksheet hosts_data vulnerabilities = Ok worksheet' ->
  Forall has_severity vulnerabilities /\
  worksheet'
  = mkWorksheet (ws_name worksheet)
      (ws_cells worksheet
       ++ [(19%nat, 0%nat, VStr "Severity"); (19%nat, 1%nat, VStr "Count");
           (20%nat, 0%nat, VStr "Critical");
           (20%nat, 1%nat, VInt (severity_count 4 vulnerabilities));
           (21%nat, 0%nat, VStr "High");
           (21%nat, 1%nat, VInt (severity_count 3 vulnerabilities));
           (22%nat, 0%nat, VStr "Medium");
           (22%nat, 1%nat, VInt (severity_count 2 vulnerabilities));
           (23%nat, 0%nat, VStr "Low");
           (23%nat, 1%nat, VInt (severity_count 1 vulnerabilities));
           (24%nat, 0%nat, VStr "Info");
           (24%nat, 1%nat, VInt (severity_count 0 vulnerabilities))])
      (ws_charts worksheet ++ [("D2", dashboard_chart)])
      (ws_tab_color worksheet) (ws_columns worksheet).
Proof.
  intros H. unfold create_dashboard_chart in H.
  inv_bind H. rename a into counts.
  destruct (tally_loop_Ok _ _ _ Ha) as (Hall & Hcounts).
  split; [exact Hall|].
  change (ws_write_a1 worksheet "A20" (VStr "Severity"))
    with (Ok (ws_write worksheet 19 0 (VStr "Severity"))) in H.
  rewrite bind_unit in H.
  change (ws_write_a1 (ws_write worksheet 19 0 (VStr "Severity")) "B20"
                      (VStr "Count"))
    with (Ok (ws_write (ws_write worksheet 19 0 (VStr "Severity")) 19 1
                       (VStr "Count"))) in H.
  rewrite bind_unit in H.
  inv_bind H. destruct a as [w r]. apply Ok_inj in H. subst worksheet'.
  unfold severity_names in Ha0. cbn [for_each] in Ha0.
  inv_bind Ha0. apply summary_body_lookup in Ha1. destruct Ha1 as (n4 & H4 & ->).
  inv_bind Ha0. apply summary_body_lookup in Ha1. destruct Ha1 as (n3 & H3 & ->).
  inv_bind Ha0. apply summary_body_lookup in Ha1. destruct Ha1 as (n2 & H2 & ->).
  inv_bind Ha0. apply summary_body_lookup in Ha1. destruct Ha1 as (n1 & H1 & ->).
  inv_bind Ha0. apply summary_body_lookup in Ha1. destruct Ha1 as (n0 & H0 & ->).
  apply Ok_inj in Ha0. injection Ha0 as <- _.
  rewrite (Hcounts 4 "Critical" eq_refl) in H4.
  rewrite (Hcounts 3 "High" eq_refl) in H3.
  rewrite (Hcounts 2 "Medium" eq_refl) in H2.
  rewrite (Hcounts 1 "Low" eq_refl) in H1.
  rewrite (Hcounts 0 "Info" eq_refl) in H0.
  change (init_severity_counts !! "Critical") with (Some 0) in H4.
  change (init_severity_counts !! "High") with (Some 0) in H3.
  change (init_severity_counts !! "Medium") with (Some 0) in H2.
  change (init_severity_counts !! "Low") with (Some 0) in H1.
  change (init_severity_counts !! "Info") with (Some 0) in H0.
  cbn [fmap option_fmap option_map] in H4, H3, H2, H1, H0.
  apply (inj Some) in H4, H3, H2, H1, H0. subst n4 n3 n2 n1 n0.
  destruct worksheet as [name cells charts color cols].
  rewrite !ws_write_mk, insert_chart_mk.
  cbn [ws_name ws_cells ws_charts ws_tab_color ws_columns].
  f_equal. rewrite <- !app_assoc. reflexivity.
Qed.

(** A cell written in the last writes of a sheet holds the last of them. *)
Lemma cell_at_recent name old new charts color cols rc :
  head (List.filter (fun w => bool_decide (fst w = rc)) (rev new)) ≠ None ->
  cell_at (mkWorksheet name (old ++ new) charts color cols) rc
  = snd <$> head (List.filter (fun w => bool_decide (fst w = rc)) (rev new)).
Proof.
  intros H. unfold cell_at. cbn [ws_cells].
  rewrite rev_app_distr, List.filter_app.
  now destruct (List.filter _ (rev new)).
Qed.

(** X11: after [create_dashboard_chart] returns, the count cell beside each
    label holds the number of records whose Severity is that label's
    ordinal; a record whose Severity is anything else (another integer, a
    string, [None]) is counted nowhere. *)
Theorem dashboard_counts_by_severity worksheet hosts_data vulnerabilities
    worksheet' :
  create_dashboard_chart worksheet hosts_data vulnerabilities = Ok worksheet' ->
  cell_at worksheet' (20, 0)%nat = Some (VStr "Critical") /\
  cell_at worksheet' (20, 1)%nat
  = Some (VInt (severity_count 4 vulnerabilities)) /\
  cell_at worksheet' (21, 0)%nat = Some (VStr "High") /\
  cell_at worksheet' (21, 1)%nat
  = Some (VInt (severity_count 3 vulnerabilities)) /\
  cell_at worksheet' (22, 0)%nat = Some (VStr "Medium") /\
  cell_at worksheet' (22, 1)%nat
  = Some (VInt (severity_count 2 vulnerabilities)) /\
  cell_at worksheet' (23, 0)%nat = Some (VStr "Low") /\
  cell_at worksheet' (23, 1)%nat
  = Some (VInt (severity_count 1 vulnerabilities)) /\
  cell_at worksheet' (24, 0)%nat = Some (VStr "Info") /\
  cell_at worksheet' (24, 1)%nat
  = Some (VInt (severity_count 0 vulnerabilities)).
Proof.
  intros H. destruct (create_dashboard_chart_counts _ _ _ _ H) as (_ & ->).
  repeat split;
    (rewrite cell_at_recent by (vm_compute; discriminate));
    vm_compute; reflexivity.
Qed.

Lemma dashboard_counts_by_severity_witness :
  cell_at odd_records_home (20, 0)%nat = Some (VStr "Critical") /\
  cell_at odd_records_home (20, 1)%nat
  = Some (VInt (severity_count 4 odd_records)) /\
  cell_at odd_records_home (21, 0)%nat = Some (VStr "High") /\
  cell_at odd_records_home (21, 1)%nat
  = Some (VInt (severity_count 3 odd_records)) /\
  cell_at odd_records_home (22, 0)%nat = Some (VStr "Medium") /\
  cell_at odd_records_home (22, 1)%nat
  = Some (VInt (severity_count 2 odd_records)) /\
  cell_at odd_records_home (23, 0)%nat = Some (VStr "Low") /\
  cell_at odd_records_home (23, 1)%nat
  = Some (VInt (severity_count 1 odd_records)) /\
  cell_at odd_records_home (24, 0)%nat = Some (VStr "Info") /\
  cell_at odd_records_home (24, 1)%nat
  = Some (VInt (severity_count 0 odd_records)).
Proof.
  apply (dashboard_counts_by_severity (mkWorksheet "Home" [] [] None []) []
           odd_records odd_records_home).
  vm_compute. reflexivity.
Defined.

Lemma tally_body_has_severity (c : gmap string Z) (d : PyDict) :
  label_dom c -> has_severity d ->
  exists c', tally_body c d = Ok c' /\ label_dom c'.
Proof.
  intros Hdom [x Hx]. unfold tally_body, dict_item. rewrite Hx, bind_unit.
  destruct (severity_map_get x) as [label|] eqn:Hget; [|eauto].
  destruct (severity_map_get_Some x label Hget) as (z & _ & _ & Hne & Hin).
  rewrite bool_decide_eq_false_2 by exact Hne.
  pose proof Hdom as Hdom'. unfold label_dom in Hdom'.
  rewrite Forall_forall in Hdom'.
  destruct (Hdom' label Hin) as [n Hn].
  unfold label_counts_item. rewrite Hn, bind_unit.
  eexists. split; [reflexivity|].
  unfold label_dom. rewrite Forall_forall. intros l Hl.
  rewrite lookup_insert. case_decide; [eauto|]. now apply Hdom'.
Qed.

Lemma tally_loop_missing_key (vulns : list PyDict) (c0 : gmap string Z) :
  label_dom c0 ->
  Exists (fun d => dict_get "Severity" d = None) vulns ->
  for_each tally_body vulns c0 = Raise (KeyError (VStr "Severity")).
Proof.
  intros Hdom Hex. revert c0 Hdom.
  induction vulns as [|d vulns IH]; intros c0 Hdom; [inversion Hex|].
  cbn [for_each].
  destruct (dict_get "Severity" d) as [x|] eqn:Hx.
  - destruct (tally_body_has_severity c0 d Hdom) as (c1 & -> & Hdom1);
      [now exists x|].
    rewrite bind_unit. apply IH; [|exact Hdom1].
    inversion Hex as [? ? Hd|? ? Hrest]; subst; [congruence|exact Hrest].
  - unfold tally_body, dict_item. now rewrite Hx.
Qed.

Lemma summary_loop_total (severity_counts : gmap string Z) (worksheet : Worksheet) :
  label_dom severity_counts ->
  exists worksheet',
    for_each (summary_body severity_counts) severity_names (worksheet, 20%nat)
    = Ok (worksheet', 25%nat).
Proof.
  intros Hdom. unfold label_dom, severity_names in Hdom.
  repeat match type of Hdom with
  | Forall _ (_ :: _) =>
      let n := fresh "n" in
      let Hn := fresh "Hn" in
      let H' := fresh "Hdom" in
      inversion Hdom as [|? ? [n Hn] H']; subst; clear Hdom; rename H' into Hdom
  end.
  unfold severity_names. cbn [for_each]. unfold summary_body, label_counts_item.
  rewrite Hn, bind_unit, bind_unit.
  rewrite Hn0, bind_unit, bind_unit.
  rewrite Hn1, bind_unit, bind_unit.
  rewrite Hn2, bind_unit, bind_unit.
  rewrite Hn3, bind_unit, bind_unit.
  eauto.
Qed.

(** X12: [create_dashboard_chart] returns exactly when every record it is
    given has a Severity key, whatever the value under it; given a record
    without the key it raises [KeyError('Severity')]. *)
Theorem dashboard_needs_severity_key worksheet hosts_data vulnerabilities :
  ((exists worksheet',
      create_dashboard_chart worksheet hosts_data vulnerabilities = Ok worksheet')
   <-> Forall has_severity vulnerabilities) /\
  (Exists (fun d => dict_get "Severity" d = None) vulnerabilities ->
   create_dashboard_chart worksheet hosts_data vulnerabilities
   = Raise (KeyError (VStr "Severity"))).
Proof.
  split; [split|].
  - intros [w Hw]. exact (proj1 (create_dashboard_chart_counts _ _ _ _ Hw)).
  - intros Hall.
    destruct (for_each_total tally_body label_dom has_severity vulnerabilities
                init_severity_counts) as (counts & Hrun & Hdom).
    + intros st x. apply tally_body_has_severity.
    + exact Hall.
    + exact init_severity_counts_dom.
    + unfold create_dashboard_chart. rewrite Hrun, bind_unit.
      change (ws_write_a1 worksheet "A20" (VStr "Severity"))
        with (Ok (ws_write worksheet 19 0 (VStr "Severity"))).
      rewrite bind_unit.
      change (ws_write_a1 (ws_write worksheet 19 0 (VStr "Severity")) "B20"
                          (VStr "Count"))
        with (Ok (ws_write (ws_write worksheet 19 0 (VStr "Severity")) 19 1
                           (VStr "Count"))).
      rewrite bind_unit.
      destruct (summary_loop_total counts
                  (ws_write (ws_write worksheet 19 0 (VStr "Severity")) 19 1
                            (VStr "Count")) Hdom) as [w ->].
      rewrite bind_unit. eauto.
  - intros Hex. unfold create_dashboard_chart.
    now rewrite (tally_loop_missing_key vulnerabilities init_severity_counts
                   init_severity_counts_dom Hex).
Qed.

Lemma dashboard_needs_severity_key_witness :
  create_dashboard_chart (mkWorksheet "Home" [] [] None [])
    [] [[("Severity", VInt 1)]; [("IP Address", VStr "10.0.0.5")]]
  = Raise (KeyError (VStr "Severity")).
Proof.
  apply (proj2 (dashboard_needs_severity_key (mkWorksheet "Home" [] [] None [])
                  [] [[("Severity", VInt 1)]; [("IP Address", VStr "10.0.0.5")]])).
  right. left. reflexivity.
Defined.

(** X13: the workbook starts with the Home sheet, whose first row holds the
    four run labels and whose second row holds the scan date and the lengths
    of the three lists [write_excel] was given; the sheet carries the one
    chart, at D2. *)
Theorem home_sheet_holds_totals writable output_file hosts vulns comps
    scan_date sheets :
  write_excel writable hosts vulns comps output_file scan_date = Ok sheets ->
  exists home rest,
    sheets = home :: rest /\
    ws_name home = "Home" /\
    row_cells home 0
    = [(0, VStr "Scan Date"); (1, VStr "Total Hosts");
       (2, VStr "Total Vulnerabilities");
       (3, VStr "Total Compliance Checks")]%nat /\
    row_cells home 1
    = [(0%nat, VStr scan_date); (1%nat, VInt (Z.of_nat (length hosts)));
       (2%nat, VInt (Z.of_nat (length vulns)));
       (3%nat, VInt (Z.of_nat (length comps)))] /\
    row_cells home 3 = [(0%nat, VStr "Host Summary")] /\
    ws_charts home = [("D2", dashboard_chart)].
Proof.
  intros H. destruct (write_excel_Ok _ _ _ _ _ _ _ H) as (home & Hhome & ->).
  destruct (create_dashboard_chart_Ok _ _ _ _ Hhome)
    as (n4 & n3 & n2 & n1 & n0 & ->).
  eexists _, _. split; [reflexivity|].
  repeat split; vm_compute; reflexivity.
Qed.

Lemma home_sheet_holds_totals_witness :
  exists home rest,
    two_findings_sheets = home :: rest /\
    ws_name home = "Home" /\
    row_cells home 0
    = [(0, VStr "Scan Date"); (1, VStr "Total Hosts");
       (2, VStr "Total Vulnerabilities");
       (3, VStr "Total Compliance Checks")]%nat /\
    row_cells home 1
    = [(0%nat, VStr "2024-01-01 00:00:00");
       (1%nat, VInt (Z.of_nat (length two_findings_hosts)));
       (2%nat, VInt (Z.of_nat (length two_findings_vulns)));
       (3%nat, VInt (Z.of_nat (length two_findings_comps)))] /\
    row_cells home 3 = [(0%nat, VStr "Host Summary")] /\
    ws_charts home = [("D2", dashboard_chart)].
Proof.
  apply (home_sheet_holds_totals always_writable "report.xlsx"
           two_findings_hosts two_findings_vulns
           two_findings_comps "2024-01-01 00:00:00" two_findings_sheets).
  vm_compute. reflexivity.
Defined.

Lemma severity_sheet_name_eq (vulns : list PyDict) (z : Z) :
  0 <= z <= 4 ->
  ws_name <$> severity_sheet vulns z = severity_sheet_name vulns z.
Proof.
  intros Hz. unfold severity_sheet, severity_sheet_name.
  assert (z = 0 \/ z = 1 \/ z = 2 \/ z = 3 \/ z = 4) as Hc by lia.
  destruct Hc as [->|[->|[->|[->| ->]]]];
    match goal with
    | |- context [SEVERITY_MAP !! ?k] =>
        let v := eval vm_compute in (SEVERITY_MAP !! k) in
        change (SEVERITY_MAP !! k) with v
    end;
    cbn [mbind option_bind];
    match goal with
    | |- context [with_severity ?k vulns] =>
        destruct (with_severity k vulns); [reflexivity|]
    end;
    match goal with
    | |- context [COLORS !! ?l] =>
        let v := eval vm_compute in (COLORS !! l) in
        change (COLORS !! l) with v
    end;
    reflexivity.
Qed.

Lemma severity_sheet_names (vulns : list PyDict) (zs : list Z) :
  Forall (fun z => 0 <= z <= 4) zs ->
  ws_name <$> omap (severity_sheet vulns) zs
  = omap (severity_sheet_name vulns) zs.
Proof.
  induction 1 as [|z zs Hz _ IH]; [reflexivity|].
  cbn [omap list_omap]. rewrite <- (severity_sheet_name_eq vulns z Hz).
  destruct (severity_sheet vulns z); cbn [fmap option_fmap option_map list_fmap];
    now rewrite <- IH.
Qed.

(** X14: the sheets of the workbook are, in this order, Home, Host Summary
    when there is a HostRecord, the sheets Critical, High, Medium, Low, Info
    of exactly the severities some FindingRecord has, and Compliance when
    there is a ComplianceRecord; so no two sheets have the same name. *)
Theorem workbook_sheet_order writable output_file hosts vulns comps
    scan_date sheets :
  write_excel writable hosts vulns comps output_file scan_date = Ok sheets ->
  ws_name <$> sheets
  = ["Home"]
    ++ match hosts with [] => [] | _ :: _ => ["Host Summary"] end
    ++ omap (severity_sheet_name vulns) [4; 3; 2; 1; 0]
    ++ match comps with [] => [] | _ :: _ => ["Compliance"] end /\
  NoDup (ws_name <$> sheets).
Proof.
  intros H. destruct (write_excel_Ok _ _ _ _ _ _ _ H) as (home & Hhome & ->).
  assert (E : ws_name <$> [home]
                ++ match hosts with
                   | [] => []
                   | _ :: _ => [host_summary_sheet hosts]
                   end
                ++ omap (severity_sheet vulns) [4; 3; 2; 1; 0]
                ++ match comps with
                   | [] => []
                   | _ :: _ => [compliance_sheet comps]
                   end
              = ["Home"]
                ++ match hosts with [] => [] | _ :: _ => ["Host Summary"] end
                ++ omap (severity_sheet_name vulns) [4; 3; 2; 1; 0]
                ++ match comps with [] => [] | _ :: _ => ["Compliance"] end).
  { rewrite !fmap_app, severity_sheet_names by (repeat constructor; lia).
    cbn [fmap list_fmap]. rewrite (home_name _ _ _ _ _ Hhome).
    now destruct hosts, comps. }
  split; [exact E|]. rewrite E. clear E H Hhome.
  unfold severity_sheet_name.
  change (SEVERITY_MAP !! 4) with (Some "Critical").
  change (SEVERITY_MAP !! 3) with (Some "High").
  change (SEVERITY_MAP !! 2) with (Some "Medium").
  change (SEVERITY_MAP !! 1) with (Some "Low").
  change (SEVERITY_MAP !! 0) with (Some "Info").
  cbn [omap list_omap].
  destruct hosts, comps, (with_severity 4 vulns), (with_severity 3 vulns),
    (with_severity 2 vulns), (with_severity 1 vulns), (with_severity 0 vulns);
    apply (bool_decide_unpack _); vm_compute; exact I.
Qed.

Lemma workbook_sheet_order_witness :
  ws_name <$> two_findings_sheets
  = ["Home"]
    ++ match two_findings_hosts with [] => [] | _ :: _ => ["Host Summary"] end
    ++ omap (severity_sheet_name two_findings_vulns) [4; 3; 2; 1; 0]
    ++ match two_findings_comps with [] => [] | _ :: _ => ["Compliance"] end /\
  NoDup (ws_name <$> two_findings_sheets).
Proof.
  apply (workbook_sheet_order always_writable "report.xlsx"
           two_findings_hosts two_findings_vulns
           two_findings_comps "2024-01-01 00:00:00" two_findings_sheets).
  vm_compute. reflexivity.
Defined.

(** The sheet names of the two-findings sample. *)
Example two_findings_sheet_names :
  ws_name <$> two_findings_sheets
  = ["Home"; "Host Summary"; "Critical"; "Medium"].
Proof. reflexivity. Qed.

Lemma severity_sheet_color (vulns : list PyDict) (z : Z) (ws : Worksheet) :
  severity_sheet vulns z = Some ws ->
  exists color,
    COLORS !! ws_name ws = Some color /\ ws_tab_color ws = Some (Some color).
Proof.
  unfold severity_sheet.
  destruct (SEVERITY_MAP !! z) as [label|]; [|discriminate].
  cbn [mbind option_bind].
  destruct (with_severity z vulns) as [|d recs]; [discriminate|].
  destruct (COLORS !! label) as [color|] eqn:Hc; [|discriminate].
  cbn [mbind option_bind]. intros [= <-]. exists color. now split.
Qed.

(** X15: in the workbook [write_excel] builds, each severity sheet has the
    tab colour [COLORS] gives its label, the Compliance sheet has the tab
    colour #800080, which is the colour of no severity, and the Home and
    Host Summary sheets have none. *)
Theorem sheet_tab_colors writable output_file hosts vulns comps
    scan_date sheets ws :
  write_excel writable hosts vulns comps output_file scan_date = Ok sheets ->
  In ws sheets ->
  (ws_name ws = "Home" \/ ws_name ws = "Host Summary" ->
   ws_tab_color ws = None) /\
  (In (ws_name ws) ["Critical"; "High"; "Medium"; "Low"; "Info"] ->
   exists color,
     COLORS !! ws_name ws = Some color /\
     ws_tab_color ws = Some (Some color) /\ color ≠ "#800080") /\
  (ws_name ws = "Compliance" -> ws_tab_color ws = Some (Some "#800080")).
Proof.
  intros H Hin.
  destruct (write_excel_Ok _ _ _ _ _ _ _ H) as (home & Hhome & Hsheets).
  destruct (write_excel_sheet _ _ _ _ _ _ _ _ H Hin)
    as [Hname|[(_ & ->)|[(z & Hz)|(_ & ->)]]].
  - assert (ws = home) as ->.
    { subst sheets. apply in_app_or in Hin. destruct Hin as [[<-|[]]|Hin];
        [reflexivity|exfalso].
      apply in_app_or in Hin. destruct Hin as [Hin|Hin].
      { destruct hosts; [destruct Hin|]. destruct Hin as [<-|[]]. discriminate. }
      apply in_app_or in Hin. destruct Hin as [Hin|Hin].
      { apply list_elem_of_In, list_elem_of_omap in Hin.
        destruct Hin as (z & _ & Hz).
        destruct (severity_sheet_Some _ _ _ Hz) as (Hl & _ & _).
        rewrite Hname in Hl. apply severity_map_cases in Hl.
        intuition discriminate. }
      destruct comps; [destruct Hin|]. destruct Hin as [<-|[]]. discriminate. }
    destruct (create_dashboard_chart_Ok _ _ _ _ Hhome)
      as (n4 & n3 & n2 & n1 & n0 & ->).
    cbn [ws_name ws_tab_color].
    split; [reflexivity|]. split; [|discriminate].
    cbn. intuition discriminate.
  - split; [reflexivity|]. split; [|discriminate].
    cbn. intuition discriminate.
  - destruct (severity_sheet_Some _ _ _ Hz) as (Hl & _ & _).
    destruct (severity_sheet_color _ _ _ Hz) as (color & Hc & Ht).
    split; [|split].
    + intros [Hn|Hn]; rewrite Hn in Hl; apply severity_map_cases in Hl;
        intuition discriminate.
    + intros _. exists color. split; [exact Hc|]. split; [exact Ht|].
      intros ->. unfold COLORS in Hc.
      repeat (rewrite lookup_insert in Hc; case_decide; [discriminate|]).
      now rewrite lookup_empty in Hc.
    + intros Hn. rewrite Hn in Hl. apply severity_map_cases in Hl.
      intuition discriminate.
  - split; [intros [Hn|Hn]; discriminate|]. split; [|reflexivity].
    cbn. intuition discriminate.
Qed.

Lemma sheet_tab_colors_witness :
  exists color,
    COLORS !! "Critical" = Some color /\
    ws_tab_color (default two_findings_home (two_findings_sheets !! 2%nat))
    = Some (Some color) /\
    color ≠ "#800080".
Proof.
  destruct (sheet_tab_colors always_writable "report.xlsx"
           two_findings_hosts two_findings_vulns
              two_findings_comps "2024-01-01 00:00:00" two_findings_sheets
              (default two_findings_home (two_findings_sheets !! 2%nat)))
    as (_ & Hsev & _).
  - vm_compute. reflexivity.
  - vm_compute. right. right. left. reflexivity.
  - apply Hsev. vm_compute. left. reflexivity.
Defined.
